(** * SmartDAC: the command encoder of [smartDac.py]

    A shallow embedding of the DAC control script: the register map and the
    command words, the unit conversions (volts to DAC code and back, the slew
    and code-step tables), and the methods of class [dac] that build the
    two-byte register payloads and hand them to the I2C bus, and the two
    argument checks defined at the top of the script.

    Python values are modelled as follows.
    - [int] is [Z]; [<<], [>>], [&] and [|] are [Z.shiftl], [Z.shiftr],
      [Z.land] and [Z.lor] (Python's shifts and masks on unbounded
      two's-complement integers).
    - [float] is IEEE 754 binary64, as the bit-level specification
      [spec_float] of the Standard Library with [prec = 53], [emax = 1024].
    - the bus, [time.sleep] and [print] are recorded as a trace of events;
      an uncaught exception ends the run and keeps the events issued so far. *)

From Stdlib Require Import ZArith List String Bool Lia QArith Qabs.
From Stdlib Require Import SpecFloat DecimalString.
Import ListNotations.

Open Scope Z_scope.

(** ** Binary64 arithmetic as Python performs it *)

Module F64.

Definition prec : Z := 53.
Definition emax : Z := 1024.

Definition float := spec_float.

Definition mul : float -> float -> float := SFmul prec emax.
Definition div : float -> float -> float := SFdiv prec emax.
Definition leb : float -> float -> bool := SFleb.
Definition valid : float -> bool := valid_binary prec emax.

(** The binary64 nearest to an integer (ties to even). *)
Definition of_Z (z : Z) : float := binary_normalize prec emax z 0 false.

(** A decimal literal [n/d] with [n] and [d] below [2^53]: both convert
    exactly, and the correctly rounded quotient is the binary64 nearest to
    the decimal, which is what Python's parser produces. *)
Definition lit (n d : Z) : float := div (of_Z n) (of_Z d).

Definition is_zero (x : float) : bool :=
  match x with S754_zero _ => true | _ => false end.

(** The nearest integer to [m / 2^k], ties to the even one. *)
Definition round_half_even (m : Z) (k : positive) : Z :=
  let q := m / 2 ^ Zpos k in
  let r := m mod 2 ^ Zpos k in
  let h := 2 ^ (Zpos k - 1) in
  if r <? h then q
  else if h <? r then q + 1
  else if Z.even q then q else q + 1.

(** The rational value of a finite float; [0] for the others. *)
Definition to_Q (x : float) : Q :=
  match x with
  | S754_finite s m e =>
      let v := match e with
               | Zneg k => Zpos m # (2 ^ k)%positive
               | _ => inject_Z (Zpos m * 2 ^ e)
               end in
      if s then Qopp v else v
  | _ => 0%Q
  end.

End F64.

(** ** Python values, exceptions and effects *)

Inductive exn : Type :=
| TypeError | IndexError | ZeroDivisionError | ValueError | OverflowError.

Inductive result (A : Type) : Type :=
| Ok (a : A)
| Raise (e : exn).
Arguments Ok {A} a.
Arguments Raise {A} e.

Definition and_then {A B} (r : result A) (k : A -> result B) : result B :=
  match r with
  | Ok a => k a
  | Raise e => Raise e
  end.

Notation "x <~ r ;; k" := (and_then r (fun x => k))
  (at level 61, r at next level, right associativity).

(** The values that the tables of the script hold and its lookups return. *)
#[warnings="-register-all"]
Inductive pyval : Type :=
| PyNone
| PyInt (z : Z)
| PyFloat (f : F64.float)
| PyStr (s : string)
| PyList (l : list pyval).

(** What [print] shows.  A line made of literals and strings only is kept
    as the string; the function-generator report interpolates formatted
    numbers and is kept as the tuple of the values it formats. *)
Inductive output : Type :=
| Line (s : string)
| GenReport (mode : string) (marginH marginL : F64.float) (slew_code : Z)
            (code_step_lsb : option pyval) (freq : F64.float)
| MedReport (priority : string) (interburst pulse_off pulse_on : pyval)
| VoltReport (verbose : bool) (voltage : F64.float).

Inductive event : Type :=
| BusWrite (addr reg : Z) (data : list Z)
| Sleep (seconds : F64.float)
| Print (o : output).

Definition trace := list event.

(** A computation emits events and ends in a value or an exception. *)
Definition io (A : Type) : Type := (trace * result A)%type.

Definition ret {A} (a : A) : io A := ([], Ok a).
Definition raise {A} (e : exn) : io A := ([], Raise e).
Definition emit (ev : event) : io unit := ([ev], Ok tt).
Definition lift {A} (r : result A) : io A := ([], r).

Definition bind {A B} (m : io A) (k : A -> io B) : io B :=
  match m with
  | (t, Ok a) => let (t', r) := k a in (t ++ t', r)
  | (t, Raise e) => (t, Raise e)
  end.

Notation "x <- m ;; k" := (bind m (fun x => k))
  (at level 61, m at next level, right associativity).
Notation "m ;;; k" := (bind m (fun _ => k))
  (at level 61, right associativity).

Definition events {A} (m : io A) : trace := fst m.
Definition outcome {A} (m : io A) : result A := snd m.

(** The register writes of a trace, in order. *)
Definition bus_writes (t : trace) : list (Z * list Z) :=
  flat_map (fun ev => match ev with
                      | BusWrite _ reg data => [(reg, data)]
                      | _ => []
                      end) t.

(** Whether a trace shows a frequency. *)
Definition shows_frequency (t : trace) : bool :=
  existsb (fun ev => match ev with
                     | Print (GenReport _ _ _ _ _ _) => true
                     | _ => false
                     end) t.

Module Py.

(** [v[i]] for a constant index [i >= 0]. *)
Definition getitem (v : pyval) (i : nat) : result pyval :=
  match v with
  | PyList l => match nth_error l i with
                | Some x => Ok x
                | None => Raise IndexError
                end
  | PyStr s => match String.get i s with
               | Some c => Ok (PyStr (String c EmptyString))
               | None => Raise IndexError
               end
  | _ => Raise TypeError
  end.

(** An operand of [<<], [>>], [|]: an [int]. *)
Definition as_int (v : pyval) : result Z :=
  match v with
  | PyInt z => Ok z
  | _ => Raise TypeError
  end.

(** [int] to [float], as in mixed arithmetic. *)
Definition float_of_int (z : Z) : result F64.float :=
  match F64.of_Z z with
  | S754_infinity _ => Raise OverflowError
  | f => Ok f
  end.

(** An operand of float arithmetic: a [float], or an [int] converted. *)
Definition as_float (v : pyval) : result F64.float :=
  match v with
  | PyFloat f => Ok f
  | PyInt z => float_of_int z
  | _ => Raise TypeError
  end.

(** [a / b] on floats. *)
Definition truediv (a b : F64.float) : result F64.float :=
  if F64.is_zero b then Raise ZeroDivisionError else Ok (F64.div a b).

(** [a * v] and [a / v] with a float on the left. *)
Definition fmul (a : F64.float) (v : pyval) : result F64.float :=
  b <~ as_float v ;; Ok (F64.mul a b).
Definition fdiv (a : F64.float) (v : pyval) : result F64.float :=
  b <~ as_float v ;; truediv a b.

(** [a / b] on ints: the correctly rounded quotient. *)
Definition int_truediv (a b : Z) : result F64.float :=
  if b =? 0 then Raise ZeroDivisionError
  else
    let s := xorb (a <? 0) (b <? 0) in
    match a with
    | 0 => Ok (S754_zero s)
    | _ =>
        match F64.div (S754_finite (a <? 0) (Z.to_pos (Z.abs a)) 0)
                      (S754_finite (b <? 0) (Z.to_pos (Z.abs b)) 0) with
        | S754_infinity _ => Raise OverflowError
        | f => Ok f
        end
    end.

(** [round(x)] with one argument: the nearest [int], ties to even. *)
Definition round (x : F64.float) : result Z :=
  match x with
  | S754_zero _ => Ok 0
  | S754_infinity _ => Raise OverflowError
  | S754_nan => Raise ValueError
  | S754_finite s m e =>
      Ok (cond_Zopp s
            match e with
            | Zneg k => F64.round_half_even (Zpos m) k
            | _ => Zpos m * 2 ^ e
            end)
  end.

(** [math.pow(10, -6)]: the binary64 nearest to [10^-6]. *)
Definition pow_10_m6 : F64.float := F64.lit 1 1000000.
(** [math.pow(10, -3)]: the binary64 nearest to [10^-3]. *)
Definition pow_10_m3 : F64.float := F64.lit 1 1000.

End Py.

(** ** The script: constants *)

Module SmartDac.

Import Py.

(** Registers *)
Definition regStatus : Z := 0xD0.
Definition regConfig : Z := 0xD1.
Definition regMedConfig : Z := 0xD2.
Definition regTrigger : Z := 0xD3.
Definition regDAC : Z := 0x21.
Definition regDAC_MarginH : Z := 0x25.
Definition regDAC_MarginL : Z := 0x26.
Definition regPMBusOp : Z := 0x01.
Definition regPMBus_Status : Z := 0x78.
Definition regPMBus_Ver : Z := 0x98.

(** Commands *)
Definition cmdReset : Z := 0x000A.
Definition cmdPowerOn : Z := 0x0000.
Definition cmdPowerOff : Z := 0x0010.
Definition cmdPowerOff_10k : Z := 0x0018.
Definition cmdLock : Z := 0x2000.
Definition cmdUnlock : Z := 0x5000.
Definition cmdNVMProg : Z := 0x0010.
Definition cmdNVMReload : Z := 0x0020.
Definition cmdErase : Z := 0x0000.
Definition cmdFactory : Z := 0x0200.

(** Medical commands *)
Definition medAlarmHP : Z := 0x4.
Definition medAlarmMP : Z := 0x2.
Definition medAlarmLP : Z := 0x1.

Definition medDeadTime_0 := PyList [PyInt 0x00; PyStr "16 sec"; PyStr "2.60 sec"; PyStr "2.55 sec"].
Definition medDeadTime_1 := PyList [PyInt 0x01; PyStr "16 sec"; PyStr "3.06 sec"; PyStr "2.96 sec"].
Definition medDeadTime_2 := PyList [PyInt 0x02; PyStr "16 sec"; PyStr "3.52 sec"; PyStr "3.38 sec"].
Definition medDeadTime_3 := PyList [PyInt 0x03; PyStr "16 sec"; PyStr "4.00 sec"; PyStr "3.80 sec"].

Definition medPulseOff_0 := PyList [PyInt 0x00; PyStr "40 msec"; PyStr "40 msec"; PyStr "15 msec"].
Definition medPulseOff_1 := PyList [PyInt 0x01; PyStr "60 msec"; PyStr "60 msec"; PyStr "36 msec"].
Definition medPulseOff_2 := PyList [PyInt 0x02; PyStr "80 msec"; PyStr "80 msec"; PyStr "58 msec"].
Definition medPulseOff_3 := PyList [PyInt 0x03; PyStr "100 msec"; PyStr "100 msec"; PyStr "80 msec"].

Definition medPulseOn_0 := PyList [PyInt 0x00; PyStr "80 msec"; PyStr "130 msec"; PyStr "130 msec"].
Definition medPulseOn_1 := PyList [PyInt 0x01; PyStr "103 msec"; PyStr "153 msec"; PyStr "153 msec"].
Definition medPulseOn_2 := PyList [PyInt 0x02; PyStr "126 msec"; PyStr "176 msec"; PyStr "176 msec"].
Definition medPulseOn_3 := PyList [PyInt 0x03; PyStr "150 msec"; PyStr "200 msec"; PyStr "200 msec"].

(** Function generator commands *)
Definition cmdSawL : Z := 0x01.
Definition cmdSawH : Z := 0x02.
Definition cmdSquare : Z := 0x03.
Definition cmdTriangle : Z := 0x00.
Definition cmdStartFunc : Z := 0x01.

(** Code step definitions *)
Definition step_1 := PyList [PyInt 0x00; PyInt 1].
Definition step_2 := PyList [PyInt 0x01; PyInt 2].
Definition step_3 := PyList [PyInt 0x02; PyInt 3].
Definition step_4 := PyList [PyInt 0x03; PyInt 4].
Definition step_6 := PyList [PyInt 0x04; PyInt 6].
Definition step_8 := PyList [PyInt 0x05; PyInt 8].
Definition step_16 := PyList [PyInt 0x06; PyInt 16].
Definition step_32 := PyList [PyInt 0x07; PyInt 32].

(** Slew rate definitions.  The float literals are [25.6], [204.8],
    [1.6384], [1.25], [1.5], [1.75]; the products associate to the left. *)
Definition f25_6 := F64.lit 256 10.
Definition f204_8 := F64.lit 2048 10.
Definition f1_6384 := F64.lit 16384 10000.
Definition f1_25 := F64.lit 125 100.
Definition f1_5 := F64.lit 15 10.
Definition f1_75 := F64.lit 175 100.
Definition f1023_0 := F64.of_Z 1023.
Definition f2_0 := F64.of_Z 2.
Definition f1_0 := F64.of_Z 1.
Definition f0_5 := F64.lit 5 10.

Definition slew_0 := PyList [PyInt 0x00; PyFloat (F64.mul f25_6 pow_10_m6)].
Definition slew_1 := PyList [PyInt 0x01; PyFloat (F64.mul (F64.mul f25_6 pow_10_m6) f1_25)].
Definition slew_2 := PyList [PyInt 0x02; PyFloat (F64.mul (F64.mul f25_6 pow_10_m6) f1_5)].
Definition slew_3 := PyList [PyInt 0x03; PyFloat (F64.mul (F64.mul f25_6 pow_10_m6) f1_75)].
Definition slew_4 := PyList [PyInt 0x04; PyFloat (F64.mul f204_8 pow_10_m6)].
Definition slew_5 := PyList [PyInt 0x05; PyFloat (F64.mul (F64.mul f204_8 pow_10_m6) f1_25)].
Definition slew_6 := PyList [PyInt 0x06; PyFloat (F64.mul (F64.mul f204_8 pow_10_m6) f1_5)].
Definition slew_7 := PyList [PyInt 0x07; PyFloat (F64.mul (F64.mul f204_8 pow_10_m6) f1_75)].
Definition slew_8 := PyList [PyInt 0x08; PyFloat (F64.mul f1_6384 pow_10_m3)].
Definition slew_9 := PyList [PyInt 0x09; PyFloat (F64.mul (F64.mul f1_6384 pow_10_m6) f1_25)].
Definition slew_10 := PyList [PyInt 0x0A; PyFloat (F64.mul (F64.mul f1_6384 pow_10_m6) f1_5)].
Definition slew_11 := PyList [PyInt 0x0B; PyFloat (F64.mul (F64.mul f1_6384 pow_10_m6) f1_75)].
Definition slew_12 := PyList [PyInt 0x0C; PyFloat (F64.mul (F64.of_Z 12) pow_10_m6)].
Definition slew_13 := PyList [PyInt 0x0D; PyFloat (F64.mul (F64.of_Z 8) pow_10_m6)].
Definition slew_14 := PyList [PyInt 0x0E; PyFloat (F64.mul (F64.of_Z 4) pow_10_m6)].
Definition slew_15 := PyInt 0x0F.
Definition slew_no := PyInt 0x0F.

(** Masks *)
Definition cmdPowerOnMask : Z := 0xFFE7.

Definition DAC_addr : Z := 0x48.

(** [bus.write_i2c_block_data(DAC_addr, reg, data)] *)
Definition write_i2c_block_data (addr reg : Z) (data : list Z) : io unit :=
  emit (BusWrite addr reg data).

Definition print (o : output) : io unit := emit (Print o).
Definition sleep (seconds : F64.float) : io unit := emit (Sleep seconds).

(** ** class dac *)

(** split the DAC code into nibbles *)
Definition nibble (val : Z) : list Z :=
  [Z.shiftr val 8; Z.land val 0xFF].

(** [val * 1023.0 / 5], rounded to an [int], shifted left by two. *)
Definition calcDACCode (val : F64.float) : result Z :=
  DAC_CODE <~ fdiv (F64.mul val f1023_0) (PyInt 5) ;;
  DAC_CODE <~ round DAC_CODE ;;
  Ok (Z.shiftl DAC_CODE 2).

Definition msg_slew : string := "Please enter Slew Rate number from 0 to 15".
Definition msg_step : string := "Please enter Code Step number from 0 to 7".

(** [args == "no"]: [args] is the parsed command line, an
    [argparse.Namespace], which never equals a [str]. *)
Definition args_eq_no : bool := false.

Definition slew_rate (arg : Z) : io pyval :=
  if arg =? 0 then ret slew_0
  else if arg =? 1 then ret slew_1
  else if arg =? 2 then ret slew_2
  else if arg =? 3 then ret slew_3
  else if arg =? 4 then ret slew_4
  else if arg =? 5 then ret slew_5
  else if arg =? 6 then ret slew_6
  else if arg =? 7 then ret slew_7
  else if arg =? 8 then ret slew_8
  else if arg =? 9 then ret slew_9
  else if arg =? 10 then ret slew_10
  else if arg =? 11 then ret slew_11
  else if arg =? 12 then ret slew_12
  else if arg =? 13 then ret slew_13
  else if arg =? 14 then ret slew_14
  else if arg =? 15 then ret slew_15
  else if args_eq_no then ret slew_no
  else print (Line msg_slew) ;;; ret PyNone.

Definition code_step (arg : Z) : io pyval :=
  if arg =? 0 then ret step_1
  else if arg =? 1 then ret step_2
  else if arg =? 2 then ret step_3
  else if arg =? 3 then ret step_4
  else if arg =? 4 then ret step_6
  else if arg =? 5 then ret step_8
  else if arg =? 6 then ret step_16
  else if arg =? 7 then ret step_32
  else print (Line msg_step) ;;; ret PyNone.

Definition calcDeadtime (arg : Z) : pyval :=
  if arg =? 0 then medDeadTime_0
  else if arg =? 1 then medDeadTime_1
  else if arg =? 2 then medDeadTime_2
  else if arg =? 3 then medDeadTime_3
  else PyNone.

Definition calcPulse_off_time (arg : Z) : pyval :=
  if arg =? 0 then medPulseOff_0
  else if arg =? 1 then medPulseOff_1
  else if arg =? 2 then medPulseOff_2
  else if arg =? 3 then medPulseOff_3
  else PyNone.

Definition calcPulse_on_time (arg : Z) : pyval :=
  if arg =? 0 then medPulseOn_0
  else if arg =? 1 then medPulseOn_1
  else if arg =? 2 then medPulseOn_2
  else if arg =? 3 then medPulseOn_3
  else PyNone.

Definition setVoltage (voltage : F64.float) : io Z :=
  DACVal <- lift (calcDACCode voltage) ;;
  write_i2c_block_data DAC_addr regDAC (nibble DACVal) ;;;
  ret DACVal.

Definition lock : io unit :=
  write_i2c_block_data DAC_addr regTrigger (nibble cmdErase) ;;;
  write_i2c_block_data DAC_addr regConfig (nibble cmdLock).

Definition unLock : io unit :=
  write_i2c_block_data DAC_addr regTrigger (nibble cmdUnlock) ;;;
  write_i2c_block_data DAC_addr regConfig (nibble cmdErase).

Definition reset : io unit :=
  write_i2c_block_data DAC_addr regTrigger (nibble cmdReset).

Definition power (val : string) : io unit :=
  if (val =? "on")%string then
    write_i2c_block_data DAC_addr regConfig (nibble cmdPowerOn)
  else if (val =? "off")%string then
    write_i2c_block_data DAC_addr regConfig (nibble cmdPowerOff)
  else if (val =? "10k")%string then
    write_i2c_block_data DAC_addr regConfig (nibble cmdPowerOff_10k)
  else ret tt.

Definition write (reg val : Z) : io unit :=
  match nibble val with
  | regdata0 :: regdata1 :: _ =>
      write_i2c_block_data DAC_addr reg [regdata0; regdata1]
  | _ => raise IndexError
  end.

Definition NVM (mode : string) : io unit :=
  if (mode =? "prog")%string then
    write_i2c_block_data DAC_addr regTrigger (nibble cmdNVMProg)
  else if (mode =? "reload")%string then
    write_i2c_block_data DAC_addr regTrigger (nibble cmdNVMReload)
  else ret tt.

Definition funcGenOff : io unit :=
  write_i2c_block_data DAC_addr regTrigger (nibble cmdErase).

Definition factoryReset : io unit :=
  write_i2c_block_data DAC_addr regTrigger (nibble cmdFactory).

(** [((margH - margL) >> 2) + 1] *)
Definition code_span (margH margL : Z) : Z :=
  Z.shiftr (margH - margL) 2 + 1.

(** [1.0 / (2.0 * slew[1])] *)
Definition square_freq (slew : pyval) : result F64.float :=
  s1 <~ getitem slew 1 ;;
  d <~ fmul f2_0 s1 ;;
  truediv f1_0 d.

(** [1.0 / (2.0 * slew[1] * (((margH - margL) >> 2) + 1) / step[1])] *)
Definition triangle_freq (slew step : pyval) (margH margL : Z)
  : result F64.float :=
  s1 <~ getitem slew 1 ;;
  d <~ fmul f2_0 s1 ;;
  d <~ fmul d (PyInt (code_span margH margL)) ;;
  p1 <~ getitem step 1 ;;
  d <~ fdiv d p1 ;;
  truediv f1_0 d.

(** [1.0 / (slew[1] * (((margH - margL) >> 2) + 1) / step[1])] *)
Definition saw_freq (slew step : pyval) (margH margL : Z)
  : result F64.float :=
  s1 <~ getitem slew 1 ;;
  s1 <~ as_float s1 ;;
  d <~ fmul s1 (PyInt (code_span margH margL)) ;;
  p1 <~ getitem step 1 ;;
  d <~ fdiv d p1 ;;
  truediv f1_0 d.

(** [(mode_code << 14) | (slew[0] << 5)] *)
Definition square_cmd (slew : pyval) : result Z :=
  s0 <~ getitem slew 0 ;;
  s0 <~ as_int s0 ;;
  Ok (Z.lor (Z.shiftl cmdSquare 14) (Z.shiftl s0 5)).

(** [(mode_code << 14) | (slew[0] << 5) | (step[0] << 9)] *)
Definition slope_cmd (mode_code : Z) (slew step : pyval) : result Z :=
  s0 <~ getitem slew 0 ;;
  s0 <~ as_int s0 ;;
  p0 <~ getitem step 0 ;;
  p0 <~ as_int p0 ;;
  Ok (Z.lor (Z.lor (Z.shiftl mode_code 14) (Z.shiftl s0 5)) (Z.shiftl p0 9)).

(** The four writes every branch of [funcGen] issues. *)
Definition send_waveform (cmd margH margL : Z) : io unit :=
  write_i2c_block_data DAC_addr regConfig (nibble cmd) ;;;
  write_i2c_block_data DAC_addr regDAC_MarginH (nibble margH) ;;;
  write_i2c_block_data DAC_addr regDAC_MarginL (nibble margL) ;;;
  write_i2c_block_data DAC_addr regTrigger (nibble (Z.shiftl cmdStartFunc 8)).

(** The report line; [hex(slew[0])] needs an [int]. *)
Definition report (mode : string) (marginH marginL : F64.float)
           (slew : pyval) (step1 : option pyval) (freq : F64.float)
  : io unit :=
  s0 <- lift (getitem slew 0) ;;
  s0 <- lift (as_int s0) ;;
  print (GenReport mode marginH marginL s0 step1 freq).

(** The [if mode == ...] ladder of [funcGen], run once the margins, the
    slew entry and the step entry are known. *)
Definition funcGen_modes (mode : string) (marginH marginL : F64.float)
           (margH margL : Z) (slew step : pyval) : io unit :=
  if (mode =? "square")%string then
    cmd <- lift (square_cmd slew) ;;
    freq <- lift (square_freq slew) ;;
    send_waveform cmd margH margL ;;;
    report mode marginH marginL slew None freq
  else if (mode =? "triangle")%string then
    cmd <- lift (slope_cmd cmdTriangle slew step) ;;
    freq <- lift (triangle_freq slew step margH margL) ;;
    send_waveform cmd margH margL ;;;
    p1 <- lift (getitem step 1) ;;
    report mode marginH marginL slew (Some p1) freq
  else if (mode =? "sawH")%string then
    cmd <- lift (slope_cmd cmdSawH slew step) ;;
    freq <- lift (saw_freq slew step margH margL) ;;
    send_waveform cmd margH margL ;;;
    p1 <- lift (getitem step 1) ;;
    report mode marginH marginL slew (Some p1) freq
  else if (mode =? "sawL")%string then
    cmd <- lift (slope_cmd cmdSawL slew step) ;;
    freq <- lift (saw_freq slew step margH margL) ;;
    send_waveform cmd margH margL ;;;
    p1 <- lift (getitem step 1) ;;
    report mode marginH marginL slew (Some p1) freq
  else ret tt.

Definition funcGen (mode : string) (marginH marginL : F64.float)
           (slew_rate_arg code_step_arg : Z) : io unit :=
  funcGenOff ;;;
  sleep f0_5 ;;;
  margH <- lift (calcDACCode marginH) ;;
  margL <- lift (calcDACCode marginL) ;;
  slew <- slew_rate slew_rate_arg ;;
  step <- code_step code_step_arg ;;
  funcGen_modes mode marginH marginL margH margL slew step.

(** [(priority << 8) | (dead_time[0] << 4) | (offTime[0] << 2) | (onTime[0] << 0)] *)
Definition med_cmd (priority : Z) (dead_time offTime onTime : pyval)
  : result Z :=
  d0 <~ getitem dead_time 0 ;;
  d0 <~ as_int d0 ;;
  f0 <~ getitem offTime 0 ;;
  f0 <~ as_int f0 ;;
  n0 <~ getitem onTime 0 ;;
  n0 <~ as_int n0 ;;
  Ok (Z.lor (Z.lor (Z.lor (Z.shiftl priority 8) (Z.shiftl d0 4))
                   (Z.shiftl f0 2))
            (Z.shiftl n0 0)).

(** One branch of [medGen]: [col] is the column of the duration labels. *)
Definition med_branch (priority : Z) (name : string) (col : nat)
           (dead_time offTime onTime : pyval) : io unit :=
  cmd <- lift (med_cmd priority dead_time offTime onTime) ;;
  write_i2c_block_data DAC_addr regMedConfig (nibble cmd) ;;;
  d <- lift (getitem dead_time col) ;;
  f <- lift (getitem offTime col) ;;
  n <- lift (getitem onTime col) ;;
  print (MedReport name d f n).

Definition medGen (mode : string) (deadtime on off : Z) : io unit :=
  let dead_time := calcDeadtime deadtime in
  let onTime := calcPulse_on_time on in
  let offTime := calcPulse_off_time off in
  if (mode =? "l")%string then
    med_branch medAlarmLP "Low" 1 dead_time offTime onTime
  else if (mode =? "m")%string then
    med_branch medAlarmMP "Medium" 2 dead_time offTime onTime
  else if (mode =? "h")%string then
    med_branch medAlarmHP "High" 3 dead_time offTime onTime
  else ret tt.

(** ** The command handlers of the script *)

(** [((val >> 2) / 1023) * 5], the voltage the [v] command displays. *)
Definition code_to_voltage (val : Z) : result F64.float :=
  q <~ int_truediv (Z.shiftr val 2) 1023 ;;
  fmul q (PyInt 5).

(** [if args.command == "v": ...] *)
Definition command_v (voltage : F64.float) (verbose : bool) : io unit :=
  val <- setVoltage voltage ;;
  voltage <- lift (code_to_voltage val) ;;
  print (VoltReport verbose voltage).

End SmartDac.

(** ** The argument checks of the script *)

(** [str(value)] of an [int]: its decimal digits, with [-] when negative. *)
Definition str_of_int (value : Z) : string :=
  NilZero.string_of_int (Z.to_int value).

(** What a check gives back to [argparse]: a value, or an
    [argparse.ArgumentTypeError] with its message. *)
Inductive checked : Type :=
| Returns (v : pyval)
| ArgumentTypeError (message : string).

Section ArgumentChecks.

(** [int(arg)] on a command-line string: the integer, or the message of the
    [ValueError]. *)
Variable py_int : string -> Z + string.

Definition check_range_margin (arg : string) : checked :=
  match py_int arg with
  | inr err => ArgumentTypeError err
  | inl value =>
      if (value <? 0) || (value >? 5) then
        ArgumentTypeError
          ("Expected 0 <= value <= 5, got value = " ++ str_of_int value)
      else Returns PyNone
  end.

Definition check_range_slewRate (arg : string) : checked :=
  match py_int arg with
  | inr err => ArgumentTypeError err
  | inl value =>
      if (value <? 0) || (value >? 15) then
        ArgumentTypeError
          ("Expected 0 <= value <= 5, got value = " ++ str_of_int value)
      else Returns PyNone
  end.

End ArgumentChecks.

(** ** The wording of the specification

    Definitions written after the specification's formulas, to be compared
    with what the script computes. *)

Import SmartDac.

Module Spec.

(** The medical-alarm word:
    [(priority_code << 8) | (deadtime_code << 4) | (off_code << 2) | (on_code << 0)]. *)
Definition med_word (priority_code deadtime_code off_code on_code : Z) : Z :=
  Z.lor (Z.lor (Z.lor (Z.shiftl priority_code 8) (Z.shiftl deadtime_code 4))
               (Z.shiftl off_code 2))
        (Z.shiftl on_code 0).

(** Priority codes: low = 0b001, medium = 0b010, high = 0b100. *)
Definition priority_code (mode : string) : Z :=
  if (mode =? "l")%string then 1
  else if (mode =? "m")%string then 2
  else 4.

(** The two bytes of a 16-bit word, high byte first. *)
Definition split (x : Z) : list Z := [x / 256; x mod 256].

(** The mode codes of the register map. *)
Definition mode_code (mode : string) : Z :=
  if (mode =? "square")%string then cmdSquare
  else if (mode =? "triangle")%string then cmdTriangle
  else if (mode =? "sawH")%string then cmdSawH
  else cmdSawL.

(** The config word: square [(mode_code << 14) | (slew_code << 5)]; the
    other modes [(mode_code << 14) | (step_code << 9) | (slew_code << 5)]. *)
Definition config_cmd (mode : string) (slew_code step_code : Z) : Z :=
  if (mode =? "square")%string then
    Z.lor (Z.shiftl (mode_code mode) 14) (Z.shiftl slew_code 5)
  else
    Z.lor (Z.lor (Z.shiftl (mode_code mode) 14) (Z.shiftl step_code 9))
          (Z.shiftl slew_code 5).

(** The frequency: square [1 / (2 * seconds_per_lsb)]; triangle
    [1 / (2 * seconds_per_lsb * (((margH - margL) >> 2) + 1) / lsb_count)];
    sawtooth
    [1 / (seconds_per_lsb * (((margH - margL) >> 2) + 1) / lsb_count)]. *)
Definition frequency (mode : string) (seconds_per_lsb : F64.float)
           (lsb_count margH margL : Z) : F64.float :=
  let span := F64.of_Z (Z.shiftr (margH - margL) 2 + 1) in
  if (mode =? "square")%string then
    F64.div f1_0 (F64.mul f2_0 seconds_per_lsb)
  else if (mode =? "triangle")%string then
    F64.div f1_0
      (F64.div (F64.mul (F64.mul f2_0 seconds_per_lsb) span)
               (F64.of_Z lsb_count))
  else
    F64.div f1_0
      (F64.div (F64.mul seconds_per_lsb span) (F64.of_Z lsb_count)).

End Spec.

(** ** Vocabulary of the results *)

(** The float literals [3.3], [5.0] and [0.0]. *)
Definition v3_3 : F64.float := F64.lit 33 10.
Definition v5_0 : F64.float := F64.of_Z 5.
Definition v0_0 : F64.float := F64.of_Z 0.

(** The modes the command line accepts for [func]. *)
Definition waveform_modes : list string :=
  ["square"; "triangle"; "sawH"; "sawL"]%string.

(** What [funcGen] does before it looks at its arguments. *)
Definition prologue : trace :=
  [BusWrite DAC_addr regTrigger (nibble cmdErase); Sleep f0_5].

(** The seconds per LSB of a slew index, when its entry has one. *)
Definition rate_of (i : Z) : option F64.float :=
  match outcome (slew_rate i) with
  | Ok (PyList [_; PyFloat r]) => Some r
  | _ => None
  end.

(** The LSB count of a step index, when it has an entry. *)
Definition lsb_of (j : Z) : option Z :=
  match outcome (code_step j) with
  | Ok (PyList [_; PyInt l]) => Some l
  | _ => None
  end.

(** The frequency of the one report of a trace. *)
Definition reported_frequency (t : trace) : option F64.float :=
  match filter (fun ev => match ev with
                          | Print (GenReport _ _ _ _ _ _) => true
                          | _ => false
                          end) t with
  | [Print (GenReport _ _ _ _ _ f)] => Some f
  | _ => None
  end.

(** A normal positive float with exponent between [lo] and [hi]. *)
Definition normal_between (lo hi : Z) (x : spec_float) : bool :=
  match x with
  | S754_finite false m e =>
      (Zpos (digits2_pos m) =? 53) && (lo <=? e) && (e <=? hi)
  | _ => false
  end.

(** An integer kept exactly by its float. *)
Definition exact_int (n : Z) (x : spec_float) : bool :=
  match x with
  | S754_finite false m e =>
      (-1074 <=? e) && (e <=? 0) && (Zpos m =? n * 2 ^ (- e))
  | _ => false
  end.

Definition ints_1_1024 : list Z := map Z.of_nat (seq 1 1024).

(** The shape of the table entries. *)
Definition slew_entry (i : Z) (r : F64.float) : pyval :=
  PyList [PyInt i; PyFloat r].
Definition step_entry (j l : Z) : pyval :=
  PyList [PyInt j; PyInt l].



(** A finite float that is not zero, with the given sign. *)
Definition finite_signed (s : bool) (x : spec_float) : Prop :=
  exists m e, x = S754_finite s m e.

(** Whether the rate of slew index [i] is below the rate of slew index [j]. *)
Definition rate_lt (i j : Z) : bool :=
  match rate_of i, rate_of j with
  | Some a, Some b => SFltb a b
  | _, _ => false
  end.

(** The float built from a rounded mantissa. *)
Definition mk_float (m e : Z) : spec_float :=
  match m with
  | Zpos p => S754_finite false p e
  | _ => S754_zero false
  end.

(** Values scaled by [2^1074], the weight of the least binary64 digit. *)
Definition P0 : Z := 2 ^ 1074.
Definition E38 : Z := 2 ^ 1036.

Definition sc (x : spec_float) : Z :=
  match x with
  | S754_finite _ m e => Zpos m * 2 ^ (e + 1074)
  | _ => 0
  end.

Definition fin_nonneg (x : spec_float) : Prop :=
  match x with
  | S754_zero _ => True
  | S754_finite false _ e => - 1074 <= e <= 971
  | _ => False
  end.

Ltac eqb_ladder :=
  repeat match goal with
         | |- context [?a =? ?b] => destruct (Z.eqb_spec a b); [lia |]
         end.

Ltac in_range_cases i :=
  match goal with
  | H : 0 <= i <= 3 |- _ =>
      assert (i = 0 \/ i = 1 \/ i = 2 \/ i = 3) as
        [-> | [-> | [-> | ->]]] by lia; clear H
  end.

(** ** Binary64 rounding: bounds on multiplication and division *)

Lemma digits2_pos_spec (p : positive) :
  2 ^ (Zpos (digits2_pos p) - 1) <= Zpos p < 2 ^ Zpos (digits2_pos p).
Proof.
  induction p as [p IH | p IH |]; cbn [digits2_pos].
  - rewrite Pos2Z.inj_succ.
    replace (Z.succ (Zpos (digits2_pos p)) - 1) with (Z.succ (Zpos (digits2_pos p) - 1)) by lia.
    rewrite !Z.pow_succ_r by lia. lia.
  - rewrite Pos2Z.inj_succ.
    replace (Z.succ (Zpos (digits2_pos p)) - 1) with (Z.succ (Zpos (digits2_pos p) - 1)) by lia.
    rewrite !Z.pow_succ_r by lia. lia.
  - cbn. lia.
Qed.

Lemma Zdigits2_spec (m : Z) :
  0 < m -> 0 < Zdigits2 m /\ 2 ^ (Zdigits2 m - 1) <= m < 2 ^ Zdigits2 m.
Proof.
  destruct m as [| p | p]; try lia. intros _. cbn [Zdigits2].
  split; [lia | apply digits2_pos_spec].
Qed.

Lemma shr_1_m (r : shr_record) :
  0 <= shr_m r -> shr_m (shr_1 r) = shr_m r / 2.
Proof.
  destruct r as [m a b]. cbn [shr_m]. intros H.
  destruct m as [| [p | p |] | p]; cbn [shr_1 shr_m]; try lia;
    try reflexivity; Z.div_mod_to_equations; lia.
Qed.

Lemma shr_1_nonneg (r : shr_record) : 0 <= shr_m r -> 0 <= shr_m (shr_1 r).
Proof. intros H. rewrite shr_1_m by exact H. apply Z.div_pos; lia. Qed.

Lemma pow2_xO (p : positive) : 2 ^ Zpos p~0 = 2 ^ Zpos p * 2 ^ Zpos p.
Proof.
  replace (Zpos p~0) with (Zpos p + Zpos p) by lia.
  apply Z.pow_add_r; lia.
Qed.

Lemma pow2_xI (p : positive) : 2 ^ Zpos p~1 = 2 * (2 ^ Zpos p * 2 ^ Zpos p).
Proof.
  replace (Zpos p~1) with (1 + (Zpos p + Zpos p)) by lia.
  rewrite Z.pow_add_r by lia. rewrite (Z.pow_add_r 2 (Zpos p)) by lia.
  reflexivity.
Qed.

Lemma iter_shr_m (p : positive) :
  forall r, 0 <= shr_m r ->
            shr_m (iter_pos shr_1 p r) = shr_m r / 2 ^ Zpos p.
Proof.
  induction p as [p IH | p IH |]; intros r Hr; cbn [iter_pos].
  - assert (H1 : 0 <= shr_m (shr_1 r)) by (apply shr_1_nonneg; exact Hr).
    assert (H2 : 0 <= shr_m (iter_pos shr_1 p (shr_1 r))).
    { rewrite IH by exact H1. apply Z.div_pos; lia. }
    rewrite IH by exact H2. rewrite IH by exact H1. rewrite shr_1_m by exact Hr.
    rewrite !Z.div_div by lia. rewrite pow2_xI. f_equal; ring.
  - assert (H2 : 0 <= shr_m (iter_pos shr_1 p r)).
    { rewrite IH by exact Hr. apply Z.div_pos; lia. }
    rewrite IH by exact H2. rewrite IH by exact Hr.
    rewrite !Z.div_div by lia. rewrite pow2_xO. reflexivity.
  - rewrite shr_1_m by exact Hr. reflexivity.
Qed.

Lemma loc_of_record_of_loc (m : Z) (l : location) :
  loc_of_shr_record (shr_record_of_loc m l) = l.
Proof. destruct l as [| []]; reflexivity. Qed.

Lemma shr_m_record_of_loc (m : Z) (l : location) :
  shr_m (shr_record_of_loc m l) = m.
Proof. destruct l as [| []]; reflexivity. Qed.

Lemma round_nearest_even_bounds (m : Z) (l : location) :
  m <= round_nearest_even m l <= m + 1
  /\ (l = loc_Exact -> round_nearest_even m l = m).
Proof.
  destruct l as [| []]; cbn [round_nearest_even];
    try destruct (Z.even m); split; try lia; try discriminate; reflexivity.
Qed.

Lemma floor_pow2 (m n : Z) :
  0 <= n -> m / 2 ^ n * 2 ^ n <= m < (m / 2 ^ n + 1) * 2 ^ n.
Proof.
  intros Hn. assert (0 < 2 ^ n) by (apply Z.pow_pos_nonneg; lia).
  pose proof (Z.mul_div_le m (2 ^ n)). pose proof (Z.mul_succ_div_gt m (2 ^ n)).
  nia.
Qed.

Section RoundAux.

Variable K : Z.
Hypothesis HK : 1074 <= K.

Local Abbreviation P a := (2 ^ (a + K)).

Lemma P_pos (a : Z) : - K <= a -> 0 < P a.
Proof. intros H. apply Z.pow_pos_nonneg; lia. Qed.

Lemma P_add (a n : Z) : - K <= a -> 0 <= n -> P (a + n) = 2 ^ n * P a.
Proof.
  intros Ha Hn. replace (a + n + K) with (n + (a + K)) by lia.
  apply Z.pow_add_r; lia.
Qed.

Lemma P_le (a b : Z) : - K <= a -> a <= b -> P a <= P b.
Proof. intros Ha Hab. apply Z.pow_le_mono_r; lia. Qed.

Lemma P_lt_inv (a b : Z) : - K <= b -> P a < P b -> a < b.
Proof.
  intros Hb H. assert (a + K < b + K); [| lia].
  apply (Z.pow_lt_mono_r_iff 2); lia.
Qed.

Lemma P_double (a b : Z) : - K <= a -> b = a + 1 -> P b = 2 * P a.
Proof. intros Ha ->. rewrite P_add by lia. reflexivity. Qed.

(** One alignment step: the mantissa is cut to the precision its
    magnitude allows. *)
Lemma shr_fexp_stage (T m e : Z) (l : location) :
  0 <= m -> - K <= e -> e <= T -> - 1021 <= T -> m * P e < P T ->
  exists m1 e1 r,
    shr_fexp 53 1024 m e l = (r, e1) /\ shr_m r = m1 /\ 0 <= m1
    /\ - 1074 <= e1 /\ e <= e1 /\ e1 <= T
    /\ m1 * P e1 <= m * P e < (m1 + 1) * P e1
    /\ ((e1 = e /\ m1 = m /\ loc_of_shr_record r = l)
        \/ (e1 <= T - 53 /\ e < e1)).
Proof.
  intros Hm He HeT HT Hb.
  pose proof (P_pos e He) as HPe.
  assert (Hd : Zdigits2 m + e <= T).
  { destruct (Z.eq_dec m 0) as [-> | Hm0]; [cbn; lia |].
    destruct (Zdigits2_spec m) as [Hd0 [Hd1 _]]; [lia |].
    assert (P (Zdigits2 m - 1 + e) < P T); [| apply P_lt_inv in H; lia].
    replace (Zdigits2 m - 1 + e) with (e + (Zdigits2 m - 1)) by lia.
    rewrite P_add by lia. nia. }
  unfold shr_fexp, shr.
  set (f := fexp 53 1024 (Zdigits2 m + e)).
  assert (Hf : f = Z.max (Zdigits2 m + e - 53) (-1074)) by reflexivity.
  destruct (f - e) as [| n | n] eqn:En.
  - exists m, e, (shr_record_of_loc m l).
    rewrite shr_m_record_of_loc, loc_of_record_of_loc.
    repeat split; try lia. left. auto.
  - exists (m / 2 ^ Zpos n), f, (iter_pos shr_1 n (shr_record_of_loc m l)).
    rewrite iter_shr_m by (rewrite shr_m_record_of_loc; lia).
    rewrite shr_m_record_of_loc.
    assert (Hfe : f = e + Zpos n) by lia.
    pose proof (floor_pow2 m (Zpos n) ltac:(lia)) as Hfl.
    assert (HPf : P f = 2 ^ Zpos n * P e) by (rewrite Hfe; apply P_add; lia).
    split; [f_equal; lia |]. split; [reflexivity |].
    split; [apply Z.div_pos; [lia | apply Z.pow_pos_nonneg; lia] |].
    split; [lia |]. split; [lia |]. split; [lia |].
    split; [rewrite HPf; nia |]. right. lia.
  - exists m, e, (shr_record_of_loc m l).
    rewrite shr_m_record_of_loc, loc_of_record_of_loc.
    repeat split; try lia. left. auto.
Qed.

(** Rounding a value below [2^13]: the result is a finite non-negative
    float within [2^-38] of [m * 2^e]. *)
Lemma binary_round_aux_bounds (m e : Z) (l : location) :
  0 <= m -> - K <= e -> l = loc_Exact \/ e <= - 39 ->
  (m + 1) * P e <= P 13 ->
  exists m3 e3,
    binary_round_aux 53 1024 false m e l = mk_float m3 e3
    /\ 0 <= m3 /\ - 1074 <= e3 <= 13
    /\ m * P e - P (- 38) <= m3 * P e3 <= m * P e + P (- 38).
Proof.
  intros Hm He Hl Hb.
  pose proof (P_pos e He) as HPe.
  assert (He13 : e <= 13).
  { assert (P e < P 14); [| apply P_lt_inv in H; lia].
    rewrite (P_double 13 14) by lia. nia. }
  destruct (shr_fexp_stage 13 m e l) as
    (m1 & e1 & r1 & E1 & Hr1 & Hm1 & He1 & Hee1 & He1T & Hv1 & Hc1);
    try lia.
  pose proof (P_pos e1 ltac:(lia)) as HPe1.
  pose proof (P_double (-40) (-39) ltac:(lia) eq_refl) as H40.
  pose proof (P_double (-39) (-38) ltac:(lia) eq_refl) as H39.
  pose proof (P_double 13 14 ltac:(lia) eq_refl) as H13.
  pose proof (P_pos (-40) ltac:(lia)) as HP40.
  pose proof (P_le (-39) 13 ltac:(lia) ltac:(lia)) as HP3913.
  set (m2 := round_nearest_even m1 (loc_of_shr_record r1)).
  destruct (round_nearest_even_bounds m1 (loc_of_shr_record r1))
    as [Hm2 Hex]. fold m2 in Hm2, Hex.
  assert (Hup : m2 * P e1 <= m * P e + P (- 39)).
  { destruct Hc1 as [(-> & -> & Hloc) | [Hs _]].
    - destruct Hl as [-> | Hl].
      + rewrite Hex by exact Hloc. lia.
      + pose proof (P_le e (-39) ltac:(lia) ltac:(lia)). nia.
    - pose proof (P_le e1 (-39) ltac:(lia) ltac:(lia)). nia. }
  assert (Hlo : m * P e - P (- 40) <= m2 * P e1).
  { destruct Hc1 as [(-> & -> & Hloc) | [Hs _]].
    - nia.
    - pose proof (P_le e1 (-40) ltac:(lia) ltac:(lia)). nia. }
  destruct (shr_fexp_stage 14 m2 e1 loc_Exact) as
    (m3 & e3 & r3 & E3 & Hr3 & Hm3 & He3 & Hee3 & He3T & Hv3 & Hc3);
    try lia.
  exists m3, e3.
  split.
  { unfold binary_round_aux. rewrite E1. fold m2. rewrite Hr1 in *.
    fold m2. rewrite E3, Hr3.
    destruct m3 as [| p | p]; try lia; try reflexivity.
    cbn [mk_float].
    replace (e3 <=? 1024 - 53) with true; [reflexivity |].
    symmetry. apply Z.leb_le. 
    destruct Hc3 as [(-> & _) | [Hs _]]; lia. }
  split; [exact Hm3 |].
  split.
  { destruct Hc3 as [(-> & _) | [Hs _]]; lia. }
  destruct Hc3 as [(-> & -> & _) | [Hs _]].
  - lia.
  - pose proof (P_le e3 (-39) ltac:(lia) ltac:(lia)). nia.
Qed.

End RoundAux.

Lemma P0_pos : 0 < P0.
Proof. unfold P0. apply Z.pow_pos_nonneg; lia. Qed.

Lemma E38_pos : 0 < E38.
Proof. unfold E38. apply Z.pow_pos_nonneg; lia. Qed.

Lemma P0_E38 : P0 = 2 ^ 38 * E38.
Proof. unfold P0, E38. rewrite <- Z.pow_add_r by lia. reflexivity. Qed.

Lemma pow2_split (a : Z) : - 1074 <= a -> 2 ^ (a + 2148) = 2 ^ (a + 1074) * P0.
Proof.
  intros H. unfold P0. rewrite <- Z.pow_add_r by lia. f_equal. lia.
Qed.

Lemma mk_float_fin (m e : Z) :
  0 <= m -> - 1074 <= e <= 13 ->
  fin_nonneg (mk_float m e) /\ sc (mk_float m e) = m * 2 ^ (e + 1074).
Proof.
  intros Hm He. destruct m as [| p | p]; cbn; lia.
Qed.

Lemma sc_nonneg (x : spec_float) : fin_nonneg x -> 0 <= sc x.
Proof.
  destruct x as [s | s | | [] m e]; cbn [sc fin_nonneg]; lia.
Qed.

(** Multiplication of non-negative floats with a product below [2^13]:
    the result is within [2^-38] of the exact product. *)
Lemma mul_bounds (x y : spec_float) :
  fin_nonneg x -> fin_nonneg y -> sc x * sc y < 2 ^ 13 * P0 * P0 ->
  fin_nonneg (F64.mul x y)
  /\ sc x * sc y - E38 * P0 <= sc (F64.mul x y) * P0 <= sc x * sc y + E38 * P0.
Proof.
  intros Hx Hy Hb. pose proof P0_pos. pose proof E38_pos.
  destruct x as [sx | sx | | sx mx ex]; try contradiction;
    destruct y as [sy | sy | | sy my ey]; try contradiction;
    try (cbn; split; [exact I | lia]).
  destruct sx; [contradiction |]. destruct sy; [contradiction |].
  cbn [fin_nonneg] in Hx, Hy. cbn [sc] in Hb |- *.
  unfold F64.mul, SFmul, F64.prec, F64.emax. cbn [xorb].
  assert (Hpx : 0 < 2 ^ (ex + 1074)) by (apply Z.pow_pos_nonneg; lia).
  assert (Hpy : 0 < 2 ^ (ey + 1074)) by (apply Z.pow_pos_nonneg; lia).
  assert (Hpe : 2 ^ (ex + ey + 2148) = 2 ^ (ex + 1074) * 2 ^ (ey + 1074)).
  { rewrite <- Z.pow_add_r by lia. f_equal. lia. }
  assert (Hp13 : 2 ^ (13 + 2148) = 2 ^ 13 * P0 * P0).
  { unfold P0. rewrite <- !Z.pow_add_r by lia. reflexivity. }
  assert (Hp38 : 2 ^ (- 38 + 2148) = E38 * P0).
  { unfold P0, E38. rewrite <- !Z.pow_add_r by lia. reflexivity. }
  assert (He13 : ex + ey <= 13).
  { destruct (Z_le_gt_dec (ex + ey) 13) as [Hle | Hgt]; [exact Hle | exfalso].
    assert (2 ^ (13 + 2148) <= 2 ^ (ex + ey + 2148))
      by (apply Z.pow_le_mono_r; lia).
    rewrite Hpe, Hp13 in H1.
    assert (2 ^ (ex + 1074) * 2 ^ (ey + 1074)
            <= Zpos mx * 2 ^ (ex + 1074) * (Zpos my * 2 ^ (ey + 1074)))
      by (apply Z.mul_le_mono_nonneg; nia).
    lia. }
  assert (Hsplit : 2 ^ (13 + 2148) = 2 ^ (13 - (ex + ey)) * 2 ^ (ex + ey + 2148)).
  { rewrite <- Z.pow_add_r by lia. f_equal. lia. }
  destruct (binary_round_aux_bounds 2148 ltac:(lia) (Zpos (mx * my)) (ex + ey) loc_Exact)
    as (m3 & e3 & -> & Hm3 & He3 & Hv); try lia; [left; reflexivity | |].
  { rewrite Hsplit. rewrite Hp13, Hpe in Hsplit.
    assert (Zpos (mx * my) < 2 ^ (13 - (ex + ey))).
    { rewrite Pos2Z.inj_mul. nia. }
    assert (0 < 2 ^ (ex + ey + 2148)) by (apply Z.pow_pos_nonneg; lia).
    nia. }
  destruct (mk_float_fin m3 e3 Hm3 He3) as [Hfin ->]. split; [exact Hfin |].
  rewrite Hp38, Hpe, (pow2_split e3), Pos2Z.inj_mul in Hv by lia.
  lia.
Qed.

Lemma div_core_mantissa (m s : Z) :
  0 <= s ->
  match s with
  | Zpos _ => Z.shiftl m s
  | Z0 => m
  | Zneg _ => 0
  end = m * 2 ^ s.
Proof.
  intros Hs. destruct s as [| p | p]; try lia.
  apply Z.shiftl_mul_pow2. lia.
Qed.

(** Division of a non-negative float by a positive one with a quotient
    below [2^13]: the result is within [2^-37] of the exact quotient. *)
Lemma div_bounds (x y : spec_float) :
  fin_nonneg x -> fin_nonneg y -> 0 < sc y -> sc x < 2 ^ 13 * sc y ->
  fin_nonneg (F64.div x y)
  /\ sc x * P0 - 2 * E38 * sc y <= sc (F64.div x y) * sc y
     <= sc x * P0 + 2 * E38 * sc y.
Proof.
  intros Hx Hy Hy0 Hb. pose proof P0_pos. pose proof E38_pos.
  destruct y as [sy | sy | | sy my ey]; try contradiction;
    [cbn in Hy0; lia |].
  destruct sy; [contradiction |].
  destruct x as [sx | sx | | sx mx ex]; try contradiction.
  { unfold F64.div. cbn [SFdiv sc fin_nonneg] in *. split; [exact I | nia]. }
  destruct sx; [contradiction |].
  cbn [fin_nonneg] in Hx, Hy. cbn [sc] in Hb, Hy0 |- *.
  unfold F64.div, SFdiv, SFdiv_core_binary, F64.prec, F64.emax. cbn [xorb].
  set (d1 := Zdigits2 (Zpos mx)). set (d2 := Zdigits2 (Zpos my)).
  set (e' := Z.min (fexp 53 1024 (d1 + ex - (d2 + ey))) (ex - ey)).
  set (s := ex - ey - e').
  assert (Hs : 0 <= s) by (unfold s, e'; lia).
  rewrite (div_core_mantissa (Zpos mx) s Hs).
  destruct (Z.div_eucl (Zpos mx * 2 ^ s) (Zpos my)) as [q r] eqn:Eq.
  assert (Hq : q = Zpos mx * 2 ^ s / Zpos my).
  { unfold Z.div. rewrite Eq. reflexivity. }
  assert (Hps : 0 < 2 ^ s) by (apply Z.pow_pos_nonneg; lia).
  assert (Hq0 : 0 <= q) by (rewrite Hq; apply Z.div_pos; lia).
  pose proof (Z.mul_div_le (Zpos mx * 2 ^ s) (Zpos my) ltac:(lia)) as Hql.
  pose proof (Z.mul_succ_div_gt (Zpos mx * 2 ^ s) (Zpos my) ltac:(lia)) as Hqu.
  rewrite <- Hq in Hql, Hqu.
  assert (Hpx : 0 < 2 ^ (ex + 1074)) by (apply Z.pow_pos_nonneg; lia).
  assert (Hpy : 0 < 2 ^ (ey + 1074)) by (apply Z.pow_pos_nonneg; lia).
  destruct (Zdigits2_spec (Zpos mx) ltac:(lia)) as [Hd1 [Hd1l _]]. fold d1 in Hd1, Hd1l.
  destruct (Zdigits2_spec (Zpos my) ltac:(lia)) as [Hd2 [_ Hd2u]]. fold d2 in Hd2, Hd2u.
  assert (Hdd : d1 + ex - (d2 + ey) <= 13).
  { assert (2 ^ (d1 - 1 + (ex + 1074)) < 2 ^ (13 + d2 + (ey + 1074))).
    { rewrite (Z.pow_add_r 2 (d1 - 1) (ex + 1074)),
        (Z.pow_add_r 2 (13 + d2) (ey + 1074)), (Z.pow_add_r 2 13 d2) by lia.
      assert (2 ^ (d1 - 1) * 2 ^ (ex + 1074) <= Zpos mx * 2 ^ (ex + 1074))
        by (apply Z.mul_le_mono_nonneg_r; lia).
      assert (Zpos my * 2 ^ (ey + 1074) < 2 ^ d2 * 2 ^ (ey + 1074))
        by (apply Z.mul_lt_mono_pos_r; lia).
      lia. }
    apply Z.pow_lt_mono_r_iff in H1; lia. }
  assert (He'u : e' <= - 40) by (unfold e', fexp, SpecFloat.emin; lia).
  assert (He'l : - 2148 <= e') by (unfold e', fexp, SpecFloat.emin; lia).
  assert (Hpe' : 0 < 2 ^ (e' + 2148)) by (apply Z.pow_pos_nonneg; lia).
  assert (Hid : 2 ^ s * 2 ^ (e' + 2148) * 2 ^ (ey + 1074)
                = 2 ^ (ex + 1074) * P0 * P0).
  { unfold P0. rewrite <- !Z.pow_add_r by lia. f_equal. unfold s. lia. }
  assert (Hp13 : 2 ^ (13 + 2148) = 2 ^ (13 - e') * 2 ^ (e' + 2148)).
  { rewrite <- Z.pow_add_r by lia. f_equal. lia. }
  assert (Hp13' : 2 ^ (13 - e') * 2 ^ (e' + 2148) = 2 ^ 13 * P0 * P0).
  { unfold P0. rewrite <- !Z.pow_add_r by lia. f_equal. lia. }
  assert (Hp38 : 2 ^ (- 38 + 2148) = E38 * P0).
  { unfold P0, E38. rewrite <- !Z.pow_add_r by lia. reflexivity. }
  assert (Hp40 : 4 * 2 ^ (e' + 2148) <= E38 * P0).
  { rewrite <- Hp38. change 4 with (2 ^ 2). rewrite <- Z.pow_add_r by lia.
    apply Z.pow_le_mono_r; lia. }
  assert (HA : 0 < 2 ^ (e' + 2148) * 2 ^ (ey + 1074))
    by (apply Z.mul_pos_pos; assumption).
  assert (HPP : 0 < P0 * P0) by (apply Z.mul_pos_pos; assumption).
  assert (Hqb : q + 1 <= 2 ^ (13 - e')).
  { assert (Hlt : Zpos mx * 2 ^ s < 2 ^ (13 - e') * Zpos my).
    { apply (proj2 (Z.mul_lt_mono_pos_r
                      (2 ^ (e' + 2148) * 2 ^ (ey + 1074)) _ _ HA)).
      replace (Zpos mx * 2 ^ s * (2 ^ (e' + 2148) * 2 ^ (ey + 1074)))
        with (Zpos mx * (2 ^ s * 2 ^ (e' + 2148) * 2 ^ (ey + 1074))) by ring.
      replace (2 ^ (13 - e') * Zpos my * (2 ^ (e' + 2148) * 2 ^ (ey + 1074)))
        with (2 ^ (13 - e') * 2 ^ (e' + 2148) * (Zpos my * 2 ^ (ey + 1074)))
        by ring.
      rewrite Hid, Hp13'.
      replace (Zpos mx * (2 ^ (ex + 1074) * P0 * P0))
        with (Zpos mx * 2 ^ (ex + 1074) * (P0 * P0)) by ring.
      replace (2 ^ 13 * P0 * P0 * (Zpos my * 2 ^ (ey + 1074)))
        with (2 ^ 13 * (Zpos my * 2 ^ (ey + 1074)) * (P0 * P0)) by ring.
      apply (proj1 (Z.mul_lt_mono_pos_r (P0 * P0) _ _ HPP)). exact Hb. }
    assert (Hq' : q * Zpos my < 2 ^ (13 - e') * Zpos my) by lia.
    apply (proj2 (Z.mul_lt_mono_pos_r (Zpos my) _ _ ltac:(lia))) in Hq'.
    lia. }
  destruct (binary_round_aux_bounds 2148 ltac:(lia) q e'
              (new_location (Zpos my) r))
    as (m3 & e3 & -> & Hm3 & He3 & Hv); try lia.
  { rewrite Hp13. apply Z.mul_le_mono_nonneg_r; lia. }
  destruct (mk_float_fin m3 e3 Hm3 He3) as [Hfin ->]. split; [exact Hfin |].
  rewrite Hp38, (pow2_split e3) in Hv by lia.
  set (Y := Zpos my * 2 ^ (ey + 1074)) in *.
  set (R := m3 * 2 ^ (e3 + 1074)) in *.
  set (Q := q * 2 ^ (e' + 2148)) in *.
  assert (HidX : Zpos mx * 2 ^ s * (2 ^ (e' + 2148) * 2 ^ (ey + 1074))
                 = Zpos mx * 2 ^ (ex + 1074) * P0 * P0).
  { rewrite <- !Z.mul_assoc. rewrite <- !Z.mul_assoc in Hid. rewrite Hid.
    reflexivity. }
  assert (HQl : Q * Y <= Zpos mx * 2 ^ (ex + 1074) * P0 * P0).
  { rewrite <- HidX. unfold Q, Y.
    replace (q * 2 ^ (e' + 2148) * (Zpos my * 2 ^ (ey + 1074)))
      with (Zpos my * q * (2 ^ (e' + 2148) * 2 ^ (ey + 1074))) by ring.
    apply Z.mul_le_mono_nonneg_r; lia. }
  assert (HQu : Zpos mx * 2 ^ (ex + 1074) * P0 * P0
                <= Q * Y + 2 ^ (e' + 2148) * Y).
  { rewrite <- HidX. unfold Q, Y.
    replace (q * 2 ^ (e' + 2148) * (Zpos my * 2 ^ (ey + 1074))
             + 2 ^ (e' + 2148) * (Zpos my * 2 ^ (ey + 1074)))
      with (Zpos my * Z.succ q * (2 ^ (e' + 2148) * 2 ^ (ey + 1074))) by ring.
    apply Z.mul_le_mono_nonneg_r; lia. }
  assert (HY : 0 < Y) by (unfold Y; lia).
  assert (H1 : (R * P0) * Y <= (Q + E38 * P0) * Y)
    by (apply Z.mul_le_mono_nonneg_r; lia).
  assert (H2 : (Q - E38 * P0) * Y <= (R * P0) * Y)
    by (apply Z.mul_le_mono_nonneg_r; lia).
  assert (H3 : 4 * 2 ^ (e' + 2148) * Y <= E38 * P0 * Y)
    by (apply Z.mul_le_mono_nonneg_r; lia).
  clear - H H1 H2 H3 HQl HQu HY.
  split.
  - apply (Z.mul_le_mono_pos_r _ _ P0); [lia |]. lia.
  - apply (Z.mul_le_mono_pos_r _ _ P0); [lia |]. lia.
Qed.

Lemma round_half_even_bounds (m : Z) (k : positive) :
  0 <= m ->
  0 <= F64.round_half_even m k
  /\ Z.abs (2 * F64.round_half_even m k * 2 ^ Zpos k - 2 * m) <= 2 ^ Zpos k.
Proof.
  intros Hm. unfold F64.round_half_even.
  assert (Hh : 2 ^ Zpos k = 2 * 2 ^ (Zpos k - 1)).
  { replace (Zpos k) with (1 + (Zpos k - 1)) at 1 by lia.
    rewrite Z.pow_add_r by lia. reflexivity. }
  assert (Hp : 0 < 2 ^ (Zpos k - 1)) by (apply Z.pow_pos_nonneg; lia).
  pose proof (Z.div_mod m (2 ^ Zpos k) ltac:(lia)) as Hdm.
  pose proof (Z.mod_pos_bound m (2 ^ Zpos k) ltac:(lia)) as Hr.
  assert (Hq : 0 <= m / 2 ^ Zpos k) by (apply Z.div_pos; lia).
  set (q := m / 2 ^ Zpos k) in *. set (r := m mod 2 ^ Zpos k) in *.
  set (h := 2 ^ (Zpos k - 1)) in *. rewrite Hh in *.
  destruct (Z.ltb_spec r h); [split; nia |].
  destruct (Z.ltb_spec h r); [split; nia |].
  destruct (Z.even q); split; nia.
Qed.

(** [round] of a non-negative float is within one half of it. *)
Lemma round_bounds (x : spec_float) :
  fin_nonneg x ->
  exists c, Py.round x = Ok c /\ 0 <= c /\ Z.abs (2 * c * P0 - 2 * sc x) <= P0.
Proof.
  pose proof P0_pos as HP.
  destruct x as [s | s | | [] m e]; cbn [fin_nonneg]; try contradiction.
  - intros _. exists 0. cbn [Py.round sc]. repeat split; lia.
  - intros He. cbn [Py.round sc cond_Zopp].
    destruct e as [| p | p].
    + exists (Zpos m * 2 ^ 0). change (2 ^ 0) with 1.
      change (2 ^ (0 + 1074)) with P0. repeat split; lia.
    + exists (Zpos m * 2 ^ Zpos p).
      assert (0 < 2 ^ Zpos p) by (apply Z.pow_pos_nonneg; lia).
      assert (2 ^ (Zpos p + 1074) = 2 ^ Zpos p * P0)
        by (unfold P0; apply Z.pow_add_r; lia).
      repeat split; nia.
    + exists (F64.round_half_even (Zpos m) p).
      destruct (round_half_even_bounds (Zpos m) p ltac:(lia)) as [Hc Hb].
      assert (HW : 0 < 2 ^ (Zneg p + 1074)) by (apply Z.pow_pos_nonneg; lia).
      assert (HP0 : P0 = 2 ^ Zpos p * 2 ^ (Zneg p + 1074)).
      { unfold P0. rewrite <- Z.pow_add_r by lia. f_equal. lia. }
      split; [reflexivity |]. split; [exact Hc |].
      set (c := F64.round_half_even (Zpos m) p) in *.
      set (W := 2 ^ (Zneg p + 1074)) in *. set (T := 2 ^ Zpos p) in *.
      rewrite HP0.
      replace (2 * c * (T * W) - 2 * (Zpos m * W))
        with ((2 * c * T - 2 * Zpos m) * W) by ring.
      rewrite Z.abs_mul, (Z.abs_eq W) by lia.
      apply Z.mul_le_mono_nonneg_r; lia.
Qed.

Lemma P0_split (a b : Z) : 0 <= a -> 0 <= b -> a + b = 1074 -> P0 = 2 ^ a * 2 ^ b.
Proof.
  intros Ha Hb H. transitivity (2 ^ (a + b)).
  - rewrite H. reflexivity.
  - apply Z.pow_add_r; assumption.
Qed.

Lemma valid_finite (m : positive) (e : Z) :
  F64.valid (S754_finite false m e) = true ->
  - 1074 <= e <= 971 /\ Zpos m < 2 ^ 53.
Proof.
  intros Hv.
  unfold F64.valid, valid_binary, bounded, canonical_mantissa, fexp,
    SpecFloat.emin, F64.prec, F64.emax in Hv.
  apply andb_true_iff in Hv. destruct Hv as [Hc Hb].
  apply Z.eqb_eq in Hc. apply Z.leb_le in Hb.
  pose proof (digits2_pos_spec m) as [_ Hd].
  split; [lia |].
  eapply Z.lt_le_trans; [exact Hd |]. apply Z.pow_le_mono_r; lia.
Qed.

Lemma leb_finite (m1 m2 : positive) (e1 e2 : Z) :
  SFleb (S754_finite false m1 e1) (S754_finite false m2 e2) = true ->
  e1 < e2 \/ (e1 = e2 /\ Zpos m1 <= Zpos m2).
Proof.
  unfold SFleb, SFcompare. intros H.
  destruct (Z.compare_spec e1 e2) as [E | E | E].
  - right. split; [exact E |].
    rewrite Pos.compare_cont_spec in H. unfold Pos.switch_Eq in H.
    destruct (Pos.compare_spec m1 m2) as [Em | Em | Em].
    + rewrite Em. apply Z.le_refl.
    + apply Z.lt_le_incl, Pos2Z.pos_lt_pos, Em.
    + discriminate H.
  - left. exact E.
  - discriminate H.
Qed.

Lemma v5_0_eq : v5_0 = S754_finite false (5 * 2 ^ 50) (-50).
Proof. vm_compute. reflexivity. Qed.

Lemma range_0_5 (v : spec_float) :
  F64.valid v = true -> F64.leb v0_0 v = true -> F64.leb v v5_0 = true ->
  fin_nonneg v /\ sc v <= 5 * P0.
Proof.
  pose proof P0_pos as HP.
  intros Hv H0 H5.
  destruct v as [s | s | | s m e]; cbn [fin_nonneg sc].
  - split; [exact I | lia].
  - destruct s; [discriminate H0 | discriminate H5].
  - discriminate H0.
  - destruct s; [discriminate H0 |].
    destruct (valid_finite m e Hv) as [He Hm]. split; [exact He |].
    rewrite v5_0_eq in H5. apply leb_finite in H5.
    rewrite Pos2Z.inj_mul, Pos2Z.inj_pow in H5.
    pose proof (P0_split (- e) (e + 1074) ltac:(lia) ltac:(lia) ltac:(lia))
      as HPW.
    assert (Hpos : 0 < 2 ^ (e + 1074)) by (apply Z.pow_pos_nonneg; lia).
    rewrite HPW.
    destruct H5 as [Hlt | [Heq Hm5]].
    + assert (HT : 2 ^ 51 <= 2 ^ (- e)) by (apply Z.pow_le_mono_r; lia).
      set (W := 2 ^ (e + 1074)) in *. set (T := 2 ^ (- e)) in *.
      clearbody W T. clear - HT Hpos Hm. nia.
    + assert (HT : 2 ^ (- e) = 2 ^ 50) by (rewrite Heq; reflexivity).
      rewrite HT.
      set (W := 2 ^ (e + 1074)) in *.
      clearbody W. clear - Hm5 Hpos. nia.
Qed.

Lemma f1023_0_eq : f1023_0 = S754_finite false (1023 * 2 ^ 43) (-43).
Proof. vm_compute. reflexivity. Qed.

Lemma sc_f1023_0 : fin_nonneg f1023_0 /\ sc f1023_0 = 1023 * P0.
Proof.
  rewrite f1023_0_eq. split; [cbn; lia |]. cbn [sc].
  rewrite Pos2Z.inj_mul, Pos2Z.inj_pow.
  rewrite (P0_split 43 (-43 + 1074)) by lia. ring.
Qed.

Lemma sc_v5_0 : fin_nonneg v5_0 /\ sc v5_0 = 5 * P0.
Proof.
  rewrite v5_0_eq. split; [cbn; lia |]. cbn [sc].
  rewrite Pos2Z.inj_mul, Pos2Z.inj_pow.
  rewrite (P0_split 50 (-50 + 1074)) by lia. ring.
Qed.

Lemma float_of_int_5 : Py.float_of_int 5 = Ok v5_0.
Proof. reflexivity. Qed.

Lemma truediv_v5_0 (a : spec_float) : Py.truediv a v5_0 = Ok (F64.div a v5_0).
Proof. unfold Py.truediv. rewrite v5_0_eq. reflexivity. Qed.

(** The code of a voltage in [0, 5]: within half a step of [v * 1023 / 5],
    up to the rounding of the two float operations. *)
Lemma calcDACCode_range (v : spec_float) :
  F64.valid v = true -> F64.leb v0_0 v = true -> F64.leb v v5_0 = true ->
  exists c, calcDACCode v = Ok (Z.shiftl c 2) /\ 0 <= c <= 1023
            /\ Z.abs (10 * c * P0 - 2046 * sc v) <= 5 * P0 + 22 * E38.
Proof.
  intros Hv H0 H5.
  destruct (range_0_5 v Hv H0 H5) as [Hfin Hle].
  pose proof P0_pos as HP. pose proof E38_pos as HE. pose proof P0_E38 as HPE.
  pose proof (sc_nonneg v Hfin) as Hv0.
  destruct sc_f1023_0 as [Hf1023 Hs1023]. destruct sc_v5_0 as [Hf5 Hs5].
  destruct (mul_bounds v f1023_0 Hfin Hf1023) as [Hfin1 Hb1].
  { rewrite Hs1023. clear - Hle HP Hv0. nia. }
  set (f1 := F64.mul v f1023_0) in *. rewrite Hs1023 in Hb1.
  assert (Hb1' : 1023 * sc v - E38 <= sc f1 <= 1023 * sc v + E38).
  { clear - Hb1 HP. nia. }
  destruct (div_bounds f1 v5_0 Hfin1 Hf5) as [Hfin2 Hb2].
  { rewrite Hs5. lia. }
  { rewrite Hs5. clear - Hb1' Hle HP HE HPE. lia. }
  set (f2 := F64.div f1 v5_0) in *. rewrite Hs5 in Hb2.
  assert (Hb2' : sc f1 - 10 * E38 <= 5 * sc f2 <= sc f1 + 10 * E38).
  { clear - Hb2 HP. nia. }
  destruct (round_bounds f2 Hfin2) as (c & Hr & Hc0 & Hcb).
  exists c. split.
  { unfold calcDACCode, Py.fdiv. cbn [Py.as_float and_then].
    rewrite float_of_int_5. cbn [and_then]. rewrite truediv_v5_0.
    cbn [and_then]. fold f1. fold f2. rewrite Hr. reflexivity. }
  assert (Hmain : Z.abs (10 * c * P0 - 2046 * sc v) <= 5 * P0 + 22 * E38).
  { clear - Hb1' Hb2' Hcb. lia. }
  split; [| exact Hmain].
  split; [exact Hc0 |].
  clear - Hmain Hle HPE HE HP Hv0 Hc0.
  destruct (Z_le_gt_dec c 1023) as [Hc | Hc]; [exact Hc | exfalso].
  assert (1024 * P0 <= c * P0) by (apply Z.mul_le_mono_nonneg_r; lia).
  lia.
Qed.

Lemma pow2_P0 (a : Z) : 0 <= a -> 2 ^ (a + 1074) = 2 ^ a * P0.
Proof. intros Ha. unfold P0. apply Z.pow_add_r; lia. Qed.

Lemma int_truediv_1023 (c : Z) :
  0 <= c <= 1023 ->
  exists g, Py.int_truediv c 1023 = Ok g /\ fin_nonneg g
            /\ Z.abs (1023 * sc g - c * P0) <= 2046 * E38.
Proof.
  intros Hc. pose proof P0_pos as HP. pose proof E38_pos as HE.
  pose proof P0_E38 as HPE.
  unfold Py.int_truediv. change (1023 =? 0) with false. cbv iota.
  destruct c as [| p | p]; [| | lia].
  - exists (S754_zero false). split; [reflexivity |]. split; [exact I |].
    cbn [sc]. lia.
  - change (Z.pos p <? 0) with false. change (1023 <? 0) with false.
    change (Z.to_pos (Z.abs (Z.pos p))) with p.
    change (Z.to_pos (Z.abs 1023)) with 1023%positive.
    set (x := S754_finite false p 0). set (y := S754_finite false 1023 0).
    assert (Hx : fin_nonneg x) by (cbn; lia).
    assert (Hy : fin_nonneg y) by (cbn; lia).
    assert (Hsx : sc x = Zpos p * P0).
    { unfold x. cbn [sc]. rewrite (pow2_P0 0) by lia. reflexivity. }
    assert (Hsy : sc y = 1023 * P0).
    { unfold y. cbn [sc]. rewrite (pow2_P0 0) by lia. reflexivity. }
    destruct (div_bounds x y Hx Hy) as [Hfin Hb].
    { rewrite Hsy. lia. }
    { rewrite Hsx, Hsy. clear - Hc HP. nia. }
    rewrite Hsx, Hsy in Hb.
    exists (F64.div x y). split.
    { destruct (F64.div x y) as [s | s | | s m e]; try reflexivity.
      contradiction. }
    split; [exact Hfin |].
    clear - Hb HP. nia.
Qed.

(** The voltage shown for a code: within rounding of [code * 5 / 1023]. *)
Lemma code_to_voltage_bounds (c : Z) :
  0 <= c <= 1023 ->
  exists u, code_to_voltage (Z.shiftl c 2) = Ok u /\ fin_nonneg u
            /\ Z.abs (1023 * sc u - 5 * c * P0) <= 11253 * E38.
Proof.
  intros Hc. pose proof P0_pos as HP. pose proof E38_pos as HE.
  pose proof P0_E38 as HPE.
  destruct (int_truediv_1023 c Hc) as (g & Hg & Hfin & Hb).
  destruct sc_v5_0 as [Hf5 Hs5].
  pose proof (sc_nonneg g Hfin) as Hg0.
  destruct (mul_bounds g v5_0 Hfin Hf5) as [Hfinu Hbu].
  { rewrite Hs5.
    assert (1023 * sc g <= 1024 * P0) by (clear - Hb Hc HP HPE HE; nia).
    clear - H HP Hg0. nia. }
  rewrite Hs5 in Hbu.
  exists (F64.mul g v5_0). split.
  { unfold code_to_voltage.
    rewrite Z.shiftr_shiftl_l by lia. change (2 - 2) with 0.
    rewrite Z.shiftl_0_r, Hg. cbn [and_then]. unfold Py.fmul.
    cbn [Py.as_float]. rewrite float_of_int_5. reflexivity. }
  split; [exact Hfinu |].
  assert (Hu : 5 * sc g - E38 <= sc (F64.mul g v5_0) <= 5 * sc g + E38).
  { clear - Hbu HP. nia. }
  clear - Hu Hb. lia.
Qed.

Lemma to_Q_scaled (x : spec_float) :
  fin_nonneg x -> (F64.to_Q x * inject_Z P0 == inject_Z (sc x))%Q.
Proof.
  destruct x as [s | s | | [] m e]; cbn [fin_nonneg]; try contradiction.
  - intros _. cbn [F64.to_Q sc]. apply Qmult_0_l.
  - intros He. cbn [F64.to_Q sc].
    destruct e as [| p | p].
    + rewrite <- inject_Z_mult. rewrite (pow2_P0 0) by lia.
      rewrite Z.mul_assoc. reflexivity.
    + rewrite <- inject_Z_mult. rewrite (pow2_P0 (Zpos p)) by lia.
      rewrite Z.mul_assoc. reflexivity.
    + unfold Qeq, Qmult, inject_Z. cbn [Qnum Qden].
      rewrite Pos.mul_1_r, Pos2Z.inj_pow.
      rewrite (P0_split (Zpos p) (Zneg p + 1074)) by lia. ring.
Qed.

(** Distances between float values, from distances between scaled ones. *)
Lemma to_Q_dist (x y : spec_float) (n d : positive) :
  fin_nonneg x -> fin_nonneg y ->
  Z.abs (Zpos d * (sc x - sc y)) <= Zpos n * P0 ->
  (Qabs (F64.to_Q x - F64.to_Q y) <= Zpos n # d)%Q.
Proof.
  intros Hx Hy H. pose proof P0_pos as HP.
  assert (HPq : (0 < inject_Z P0)%Q).
  { unfold Qlt. cbn [Qnum Qden inject_Z]. lia. }
  assert (Hd : ((F64.to_Q x - F64.to_Q y) * inject_Z P0
                == inject_Z (sc x - sc y))%Q).
  { unfold Qminus. rewrite Qmult_plus_distr_l.
    assert (Hopp : (- F64.to_Q y * inject_Z P0
                    == - (F64.to_Q y * inject_Z P0))%Q) by ring.
    rewrite Hopp, (to_Q_scaled x Hx), (to_Q_scaled y Hy).
    unfold Z.sub. rewrite inject_Z_plus, inject_Z_opp. reflexivity. }
  apply Qabs_Qle_condition. split.
  - apply (Qmult_le_r _ _ (inject_Z P0) HPq). rewrite Hd.
    unfold Qle, Qopp, Qmult, inject_Z. cbn [Qnum Qden].
    rewrite Pos.mul_1_r. lia.
  - apply (Qmult_le_r _ _ (inject_Z P0) HPq). rewrite Hd.
    unfold Qle, Qmult, inject_Z. cbn [Qnum Qden].
    rewrite Pos.mul_1_r. lia.
Qed.

(** ** The lookups and the structure of [funcGen] *)

Lemma slew_rate_out (i : Z) :
  i < 0 \/ 15 < i -> slew_rate i = ([Print (Line msg_slew)], Ok PyNone).
Proof. intros H. unfold slew_rate. eqb_ladder. reflexivity. Qed.

Lemma code_step_out (i : Z) :
  i < 0 \/ 7 < i -> code_step i = ([Print (Line msg_step)], Ok PyNone).
Proof. intros H. unfold code_step. eqb_ladder. reflexivity. Qed.

Lemma code_step_in (j : Z) :
  0 <= j <= 7 ->
  exists l, code_step j = ret (PyList [PyInt j; PyInt l])
            /\ lsb_of j = Some l /\ 1 <= l <= 32
            /\ nth_error [1; 2; 3; 4; 6; 8; 16; 32] (Z.to_nat j) = Some l.
Proof.
  intros H.
  assert (j = 0 \/ j = 1 \/ j = 2 \/ j = 3 \/ j = 4 \/ j = 5 \/ j = 6 \/ j = 7)
    as E by lia.
  repeat (destruct E as [-> | E];
          [eexists; split; [reflexivity | split; [reflexivity |
             split; [lia | reflexivity]]] |]).
  subst. eexists; split; [reflexivity | split; [reflexivity |
             split; [lia | reflexivity]]].
Qed.

Lemma slew_rate_in (i : Z) :
  0 <= i <= 14 ->
  exists r, slew_rate i = ret (PyList [PyInt i; PyFloat r])
            /\ rate_of i = Some r /\ normal_between (-72) (-62) r = true.
Proof.
  intros H.
  assert (i = 0 \/ i = 1 \/ i = 2 \/ i = 3 \/ i = 4 \/ i = 5 \/ i = 6 \/ i = 7
          \/ i = 8 \/ i = 9 \/ i = 10 \/ i = 11 \/ i = 12 \/ i = 13 \/ i = 14)
    as E by lia.
  repeat (destruct E as [-> | E];
          [eexists; split; [reflexivity | split; vm_compute; reflexivity] |]).
  subst. eexists; split; [reflexivity | split; vm_compute; reflexivity].
Qed.

Lemma code_step_quiet (j : Z) :
  exists t v, code_step j = (t, Ok v)
              /\ bus_writes t = [] /\ shows_frequency t = false
              /\ (0 <= j <= 7 \/ v = PyNone).
Proof.
  destruct (Z_lt_le_dec j 0) as [Hn | Hn].
  - rewrite code_step_out by lia. do 2 eexists. repeat split. right. reflexivity.
  - destruct (Z_lt_le_dec 7 j) as [Hp | Hp].
    + rewrite code_step_out by lia. do 2 eexists. repeat split. right. reflexivity.
    + destruct (code_step_in j) as (l & -> & _); [lia |].
      do 2 eexists. repeat split. left. lia.
Qed.

Lemma slew_rate_quiet (i : Z) :
  exists t v, slew_rate i = (t, Ok v)
              /\ bus_writes t = [] /\ shows_frequency t = false.
Proof.
  destruct (Z_lt_le_dec i 0) as [Hn | Hn].
  - rewrite slew_rate_out by lia. do 2 eexists. repeat split.
  - destruct (Z_lt_le_dec 15 i) as [Hp | Hp].
    + rewrite slew_rate_out by lia. do 2 eexists. repeat split.
    + destruct (Z.eq_dec i 15) as [-> | Hne].
      * do 2 eexists. repeat split.
      * destruct (slew_rate_in i) as (r & -> & _); [lia |].
        do 2 eexists. repeat split.
Qed.

Lemma funcGen_run mode marginH marginL i j cH cL ts slew tp step :
  calcDACCode marginH = Ok cH -> calcDACCode marginL = Ok cL ->
  slew_rate i = (ts, Ok slew) -> code_step j = (tp, Ok step) ->
  funcGen mode marginH marginL i j
  = (prologue ++ ts ++ tp
       ++ events (funcGen_modes mode marginH marginL cH cL slew step),
     outcome (funcGen_modes mode marginH marginL cH cL slew step)).
Proof.
  intros HH HL Hs Hp. unfold funcGen. rewrite HH, HL, Hs, Hp.
  cbn [bind lift funcGenOff sleep write_i2c_block_data emit app].
  destruct (funcGen_modes mode marginH marginL cH cL slew step) as [t r].
  reflexivity.
Qed.

Lemma funcGen_bad_margin mode marginH marginL i j :
  (forall cH cL, ~ (calcDACCode marginH = Ok cH /\ calcDACCode marginL = Ok cL)) ->
  events (funcGen mode marginH marginL i j) = prologue
  /\ exists e, outcome (funcGen mode marginH marginL i j) = Raise e.
Proof.
  intros H. unfold funcGen.
  destruct (calcDACCode marginH) as [c | e]; [| split; [reflexivity | eexists; reflexivity]].
  destruct (calcDACCode marginL) as [d | e]; [| split; [reflexivity | eexists; reflexivity]].
  exfalso. apply (H c d). auto.
Qed.

(** Without a list for the slew entry every branch stops before its writes. *)
Lemma modes_no_slew mode marginH marginL cH cL slew step :
  slew = PyNone \/ slew = slew_15 ->
  events (funcGen_modes mode marginH marginL cH cL slew step) = []
  /\ (In mode waveform_modes ->
      outcome (funcGen_modes mode marginH marginL cH cL slew step)
      = Raise TypeError).
Proof.
  intros [-> | ->]; unfold funcGen_modes;
    (destruct (mode =? "square")%string eqn:E1; [split; reflexivity |]);
    (destruct (mode =? "triangle")%string eqn:E2; [split; reflexivity |]);
    (destruct (mode =? "sawH")%string eqn:E3; [split; reflexivity |]);
    (destruct (mode =? "sawL")%string eqn:E4; [split; reflexivity |]);
    (split; [reflexivity |
             intros [<- | [<- | [<- | [<- | []]]]]; discriminate]).
Qed.

(** Without a list for the step entry the slope branches stop before their
    writes. *)
Lemma modes_no_step mode marginH marginL cH cL i r :
  In mode ["triangle"; "sawH"; "sawL"]%string ->
  funcGen_modes mode marginH marginL cH cL (PyList [PyInt i; PyFloat r]) PyNone
  = ([], Raise TypeError).
Proof.
  intros [<- | [<- | [<- | []]]]; reflexivity.
Qed.

Lemma E38_split (a b : Z) :
  0 <= a -> 0 <= b -> a + b = 1036 -> E38 = 2 ^ a * 2 ^ b.
Proof.
  intros Ha Hb H. transitivity (2 ^ (a + b)).
  - rewrite H. reflexivity.
  - apply Z.pow_add_r; assumption.
Qed.

(** The slew rates lie between [2^-20] and [2^-9] seconds per LSB. *)
Lemma rate_bounds (r : spec_float) :
  normal_between (-72) (-62) r = true ->
  fin_nonneg r /\ 2 ^ 18 * E38 <= sc r <= 2 ^ 29 * E38.
Proof.
  destruct r as [s | s | | [] m e]; cbn [normal_between]; try discriminate.
  intros H. apply andb_true_iff in H. destruct H as [H He2].
  apply andb_true_iff in H. destruct H as [Hd He1].
  apply Z.eqb_eq in Hd. apply Z.leb_le in He1, He2.
  pose proof (digits2_pos_spec m) as [Hlo Hhi]. rewrite Hd in Hlo, Hhi.
  change (53 - 1) with 52 in Hlo.
  split; [cbn; lia |]. cbn [sc].
  rewrite (E38_split (- e - 38) (e + 1074)) by lia.
  assert (HW : 0 < 2 ^ (e + 1074)) by (apply Z.pow_pos_nonneg; lia).
  assert (HT1 : 2 ^ 24 <= 2 ^ (- e - 38)) by (apply Z.pow_le_mono_r; lia).
  assert (HT2 : 2 ^ (- e - 38) <= 2 ^ 34) by (apply Z.pow_le_mono_r; lia).
  set (W := 2 ^ (e + 1074)) in *. set (T := 2 ^ (- e - 38)) in *.
  clearbody W T. clear - Hlo Hhi HW HT1 HT2. nia.
Qed.

Lemma exact_int_spec (n : Z) (x : spec_float) :
  exact_int n x = true -> fin_nonneg x /\ sc x = n * P0.
Proof.
  destruct x as [s | s | | [] m e]; cbn [exact_int]; try discriminate.
  intros H. apply andb_true_iff in H. destruct H as [H Hm].
  apply andb_true_iff in H. destruct H as [He1 He2].
  apply Z.eqb_eq in Hm. apply Z.leb_le in He1, He2.
  split; [cbn; lia |]. cbn [sc]. rewrite Hm.
  rewrite (P0_split (- e) (e + 1074)) by lia. ring.
Qed.

Lemma ints_1_1024_In (n : Z) : 1 <= n <= 1024 -> In n ints_1_1024.
Proof.
  intros H. unfold ints_1_1024. apply in_map_iff.
  exists (Z.to_nat n). split; [lia |]. apply in_seq. lia.
Qed.

Lemma of_Z_table :
  forallb (fun n => exact_int n (F64.of_Z n)) ints_1_1024 = true.
Proof. vm_compute. reflexivity. Qed.

Lemma of_Z_small (n : Z) :
  1 <= n <= 1024 ->
  exact_int n (F64.of_Z n) = true /\ Py.float_of_int n = Ok (F64.of_Z n).
Proof.
  intros H.
  assert (He : exact_int n (F64.of_Z n) = true).
  { apply (proj1 (forallb_forall _ _) of_Z_table n), ints_1_1024_In, H. }
  split; [exact He |]. unfold Py.float_of_int.
  destruct (F64.of_Z n) as [s | s | | s m e]; try reflexivity.
  destruct s; discriminate He.
Qed.

Lemma f2_0_exact : exact_int 2 f2_0 = true.
Proof. vm_compute. reflexivity. Qed.

Lemma f1_0_exact : exact_int 1 f1_0 = true.
Proof. vm_compute. reflexivity. Qed.

Lemma is_zero_pos (x : spec_float) : 0 < sc x -> F64.is_zero x = false.
Proof. destruct x; cbn; try reflexivity; lia. Qed.

(** Twice a slew rate. *)
Lemma double_rate (r : spec_float) :
  normal_between (-72) (-62) r = true ->
  fin_nonneg (F64.mul f2_0 r)
  /\ 2 ^ 17 * E38 <= sc (F64.mul f2_0 r) <= 2 ^ 31 * E38.
Proof.
  intros Hr. destruct (rate_bounds r Hr) as [Hfin Hb].
  destruct (exact_int_spec 2 f2_0 f2_0_exact) as [Hf2 Hs2].
  pose proof P0_pos as HP. pose proof E38_pos as HE. pose proof P0_E38 as HPE.
  destruct (mul_bounds f2_0 r Hf2 Hfin) as [Hfin' Hb'].
  { rewrite Hs2. clear - Hb HP HE HPE. nia. }
  split; [exact Hfin' |]. rewrite Hs2 in Hb'.
  assert (2 * sc r - E38 <= sc (F64.mul f2_0 r) <= 2 * sc r + E38)
    by (clear - Hb' HP; nia).
  clear - H Hb HE. lia.
Qed.

(** The denominator of the slope frequencies is not zero. *)
Lemma slope_den_nonzero (d nf lf : spec_float) (n l : Z) :
  fin_nonneg d -> 2 ^ 17 * E38 <= sc d <= 2 ^ 31 * E38 ->
  exact_int n nf = true -> 1 <= n <= 1024 ->
  exact_int l lf = true -> 1 <= l <= 32 ->
  F64.is_zero lf = false
  /\ F64.is_zero (F64.div (F64.mul d nf) lf) = false.
Proof.
  intros Hd Hb Hn Hnr Hl Hlr.
  destruct (exact_int_spec n nf Hn) as [Hfn Hsn].
  destruct (exact_int_spec l lf Hl) as [Hfl Hsl].
  pose proof P0_pos as HP. pose proof E38_pos as HE. pose proof P0_E38 as HPE.
  split; [apply is_zero_pos; rewrite Hsl; apply Z.mul_pos_pos; lia |].
  destruct (mul_bounds d nf Hd Hfn) as [Hf2 Hb2].
  { rewrite Hsn.
    assert (H8 : sc d * n <= 8 * P0).
    { apply Z.le_trans with (2 ^ 31 * E38 * 1024); [| lia].
      apply Z.mul_le_mono_nonneg; lia. }
    replace (sc d * (n * P0)) with (sc d * n * P0) by ring.
    apply Z.le_lt_trans with (8 * P0 * P0).
    - apply Z.mul_le_mono_nonneg_r; lia.
    - apply Z.mul_lt_mono_pos_r; lia. }
  rewrite Hsn in Hb2.
  assert (Hd2 : n * sc d - E38 <= sc (F64.mul d nf) <= n * sc d + E38)
    by (clear - Hb2 HP; nia).
  assert (Hd2' : 2 ^ 17 * E38 - E38 <= sc (F64.mul d nf) <= 2 ^ 41 * E38 + E38)
    by (clear - Hd2 Hb Hnr HE; nia).
  clear Hd2 Hb2.
  destruct (div_bounds (F64.mul d nf) lf Hf2 Hfl) as [Hf3 Hb3].
  { rewrite Hsl. apply Z.mul_pos_pos; lia. }
  { rewrite Hsl. clear - Hd2' Hlr HP HE HPE. nia. }
  rewrite Hsl in Hb3.
  apply is_zero_pos.
  assert (sc (F64.mul d nf) - 2 * E38 * l
          <= l * sc (F64.div (F64.mul d nf) lf))
    by (clear - Hb3 HP; nia).
  clear - H Hd2' Hlr HE. nia.
Qed.

Lemma code_span_range (margH margL : Z) :
  0 <= margL <= margH -> margH <= 4092 ->
  1 <= code_span margH margL <= 1024.
Proof.
  intros H1 H2. unfold code_span. rewrite Z.shiftr_div_pow2 by lia.
  change (2 ^ 2) with 4. Z.div_mod_to_equations. lia.
Qed.

Section ValidEntries.

Variables (i j l : Z) (r : spec_float).
Hypothesis Hr : normal_between (-72) (-62) r = true.
Hypothesis Hl : 1 <= l <= 32.

Local Abbreviation slew := (slew_entry i r).
Local Abbreviation step := (step_entry j l).

Lemma square_cmd_ok :
  square_cmd slew = Ok (Spec.config_cmd "square" i j).
Proof. reflexivity. Qed.

Lemma slope_cmd_ok (mode : string) :
  In mode ["triangle"; "sawH"; "sawL"]%string ->
  slope_cmd (Spec.mode_code mode) slew step
  = Ok (Spec.config_cmd mode i j).
Proof.
  intros [<- | [<- | [<- | []]]]; unfold slope_cmd, slew_entry, step_entry;
    cbn [Py.getitem nth_error and_then Py.as_int];
    unfold Spec.config_cmd; cbn [String.eqb Ascii.eqb Bool.eqb];
    rewrite <- !Z.lor_assoc, (Z.lor_comm (Z.shiftl i 5)); reflexivity.
Qed.

Lemma square_freq_ok (margH margL : Z) :
  square_freq slew = Ok (Spec.frequency "square" r l margH margL).
Proof.
  unfold square_freq, slew_entry, Py.fmul.
  cbn [Py.getitem nth_error and_then Py.as_float].
  unfold Py.truediv.
  destruct (double_rate r Hr) as [_ [Hlo _]].
  rewrite is_zero_pos; [reflexivity |].
  pose proof E38_pos. lia.
Qed.

Lemma triangle_freq_ok (margH margL : Z) :
  0 <= margL <= margH -> margH <= 4092 ->
  triangle_freq slew step margH margL
  = Ok (Spec.frequency "triangle" r l margH margL).
Proof.
  intros H1 H2. pose proof (code_span_range margH margL H1 H2) as Hn.
  destruct (of_Z_small _ Hn) as [Hen Hfn].
  destruct (of_Z_small l ltac:(lia)) as [Hel Hfl].
  destruct (double_rate r Hr) as [Hfin Hb].
  destruct (slope_den_nonzero _ _ _ _ _ Hfin Hb Hen Hn Hel Hl) as [Hz1 Hz2].
  unfold triangle_freq, slew_entry, step_entry, Py.fmul, Py.fdiv.
  cbn [Py.getitem nth_error and_then Py.as_float].
  rewrite Hfn. cbn [and_then]. rewrite Hfl. cbn [and_then].
  unfold Py.truediv. rewrite Hz1. cbn [and_then]. rewrite Hz2.
  reflexivity.
Qed.

Lemma saw_freq_ok (mode : string) (margH margL : Z) :
  In mode ["sawH"; "sawL"]%string ->
  0 <= margL <= margH -> margH <= 4092 ->
  saw_freq slew step margH margL
  = Ok (Spec.frequency mode r l margH margL).
Proof.
  intros Hm H1 H2. pose proof (code_span_range margH margL H1 H2) as Hn.
  destruct (of_Z_small _ Hn) as [Hen Hfn].
  destruct (of_Z_small l ltac:(lia)) as [Hel Hfl].
  destruct (rate_bounds r Hr) as [Hfin Hb].
  assert (Hb' : 2 ^ 17 * E38 <= sc r <= 2 ^ 31 * E38)
    by (pose proof E38_pos; lia).
  destruct (slope_den_nonzero _ _ _ _ _ Hfin Hb' Hen Hn Hel Hl) as [Hz1 Hz2].
  unfold saw_freq, slew_entry, step_entry, Py.fmul, Py.fdiv.
  cbn [Py.getitem nth_error and_then Py.as_float].
  rewrite Hfn. cbn [and_then]. rewrite Hfl. cbn [and_then].
  unfold Py.truediv. rewrite Hz1. cbn [and_then]. rewrite Hz2.
  destruct Hm as [<- | [<- | []]]; reflexivity.
Qed.

(** With table entries for the slew and the step, every branch issues its
    four writes and then the report. *)
Lemma modes_valid (mode : string) (marginH marginL : F64.float)
      (margH margL : Z) :
  In mode waveform_modes ->
  0 <= margL <= margH -> margH <= 4092 ->
  funcGen_modes mode marginH marginL margH margL slew step
  = ([BusWrite DAC_addr regConfig (nibble (Spec.config_cmd mode i j));
      BusWrite DAC_addr regDAC_MarginH (nibble margH);
      BusWrite DAC_addr regDAC_MarginL (nibble margL);
      BusWrite DAC_addr regTrigger (nibble (Z.shiftl cmdStartFunc 8));
      Print (GenReport mode marginH marginL i
               (if (mode =? "square")%string then None else Some (PyInt l))
               (Spec.frequency mode r l margH margL))],
     Ok tt).
Proof.
  intros Hm H1 H2.
  destruct Hm as [<- | [<- | [<- | [<- | []]]]]; unfold funcGen_modes;
    cbn [String.eqb Ascii.eqb Bool.eqb].
  - rewrite square_cmd_ok, (square_freq_ok margH margL). reflexivity.
  - change cmdTriangle with (Spec.mode_code "triangle").
    rewrite (slope_cmd_ok "triangle") by (cbn; auto).
    rewrite (triangle_freq_ok margH margL H1 H2). reflexivity.
  - change cmdSawH with (Spec.mode_code "sawH").
    rewrite (slope_cmd_ok "sawH") by (cbn; auto).
    rewrite (saw_freq_ok "sawH" margH margL) by (cbn; auto). reflexivity.
  - change cmdSawL with (Spec.mode_code "sawL").
    rewrite (slope_cmd_ok "sawL") by (cbn; auto).
    rewrite (saw_freq_ok "sawL" margH margL) by (cbn; auto). reflexivity.
Qed.

End ValidEntries.

(** ** Results *)

(** *** Setting a voltage *)

(** C1, as the script computes it: for the input voltage 3.3 the quotient
    [3.3 * 1023.0 / 5] rounds to 675, so [setVoltage] returns the DAC code
    [675 << 2 = 2700 = 0x0A8C] and issues exactly one bus write, the two bytes
    [(0x0A, 0x8C)] to the DAC-value register. *)
Theorem C1_setVoltage_3_3 :
  (d <~ Py.fdiv (F64.mul v3_3 f1023_0) (PyInt 5) ;; Py.round d) = Ok 675
  /\ outcome (setVoltage v3_3) = Ok (Z.shiftl 675 2)
  /\ Z.shiftl 675 2 = 0x0A8C
  /\ events (setVoltage v3_3) = [BusWrite DAC_addr regDAC [0x0A; 0x8C]].
Proof. repeat split; vm_compute; reflexivity. Qed.

(** C1 as written fails: [setVoltage(3.3)] neither returns 2704 nor writes
    the bytes [(0x0A, 0x90)]. *)
Lemma C1_counterexample :
  ~ (outcome (setVoltage v3_3) = Ok 2704
     /\ bus_writes (events (setVoltage v3_3)) = [(regDAC, [0x0A; 0x90])]).
Proof. vm_compute. intros [H _]. discriminate H. Qed.

(** *** The medical alarm word *)

(** C2: for each priority [l], [m], [h] and all indices in 0..3, [medGen]
    ends normally after exactly one bus write, to the medical-config
    register, of the two bytes of
    [(priority_code << 8) | (deadtime << 4) | (off << 2) | (on << 0)], with
    priority codes 1, 2 and 4; the word is within 16 bits, so the two bytes
    are the whole word; low priority with deadtime 2, off 1, on 3 gives
    [0x127]. *)
Theorem C2_medGen_word (mode : string) (deadtime on off : Z) :
  In mode ["l"; "m"; "h"]%string ->
  0 <= deadtime <= 3 -> 0 <= on <= 3 -> 0 <= off <= 3 ->
  let cmd := Spec.med_word (Spec.priority_code mode) deadtime off on in
  bus_writes (events (medGen mode deadtime on off))
    = [(regMedConfig, Spec.split cmd)]
  /\ outcome (medGen mode deadtime on off) = Ok tt
  /\ 0 <= cmd < 2 ^ 16
  /\ Spec.priority_code "l"%string = 1
  /\ Spec.priority_code "m"%string = 2
  /\ Spec.priority_code "h"%string = 4
  /\ Spec.med_word (Spec.priority_code "l"%string) 2 1 3 = 0x127.
Proof.
  intros Hm Hd Hon Hoff.
  in_range_cases deadtime; in_range_cases on; in_range_cases off;
    destruct Hm as [<- | [<- | [<- | []]]];
    vm_compute; intuition congruence.
Qed.

Lemma C2_medGen_word_witness :
  bus_writes (events (medGen "l"%string 2 3 1)) = [(regMedConfig, [0x01; 0x27])].
Proof.
  apply (C2_medGen_word "l"%string 2 3 1); simpl; try lia; auto.
Defined.

(** *** Starting a waveform *)

(** C3, at the failing input.  Slew index 15 is accepted by [slew_rate],
    which returns the bare code [0x0F]; in each of the four modes [funcGen]
    then issues the clear-trigger write and the sleep and ends in
    [TypeError] at the subscript of that code: the config, margin and start
    writes are not issued. *)
Theorem C3_slew_15_failing_input :
  slew_rate 15 = ret (PyInt 0x0F)
  /\ funcGen "square" v5_0 v0_0 15 0
     = ([BusWrite DAC_addr regTrigger [0x00; 0x00]; Sleep f0_5],
        Raise TypeError)
  /\ funcGen "triangle" v5_0 v0_0 15 0
     = ([BusWrite DAC_addr regTrigger [0x00; 0x00]; Sleep f0_5],
        Raise TypeError)
  /\ funcGen "sawH" v5_0 v0_0 15 0
     = ([BusWrite DAC_addr regTrigger [0x00; 0x00]; Sleep f0_5],
        Raise TypeError)
  /\ funcGen "sawL" v5_0 v0_0 15 0
     = ([BusWrite DAC_addr regTrigger [0x00; 0x00]; Sleep f0_5],
        Raise TypeError).
Proof. repeat split; vm_compute; reflexivity. Qed.

(** X19: for each of the four modes, a slew index with a numeric rate
    (0..14), a step index in 0..7 and margin codes with
    [0 <= margL <= margH <= 4092] (margins within 0..5 V, low not above
    high), [funcGen] ends normally and its events are, in this order: the
    clear-trigger write, the 0.5 s sleep, the packed config word to the
    config register, the margin-high code to the margin-high register, the
    margin-low code to the margin-low register, the start command
    [0x01 << 8] to the trigger register, and the report. *)
Theorem funcGen_write_order
        (mode : string) (marginH marginL : F64.float)
        (margH margL slew step : Z) :
  In mode waveform_modes ->
  0 <= slew <= 14 -> 0 <= step <= 7 ->
  calcDACCode marginH = Ok margH -> calcDACCode marginL = Ok margL ->
  0 <= margL <= margH -> margH <= 4092 ->
  exists report,
    events (funcGen mode marginH marginL slew step)
    = [BusWrite DAC_addr regTrigger (nibble cmdErase);
       Sleep f0_5;
       BusWrite DAC_addr regConfig (nibble (Spec.config_cmd mode slew step));
       BusWrite DAC_addr regDAC_MarginH (nibble margH);
       BusWrite DAC_addr regDAC_MarginL (nibble margL);
       BusWrite DAC_addr regTrigger (nibble (Z.shiftl cmdStartFunc 8));
       Print report]
    /\ outcome (funcGen mode marginH marginL slew step) = Ok tt
    /\ (F64.to_Q f0_5 == 500 # 1000)%Q
    /\ nibble cmdErase = [0x00; 0x00]
    /\ nibble (Z.shiftl cmdStartFunc 8) = [0x01; 0x00].
Proof.
  intros Hm Hs Hp HH HL Hc1 Hc2.
  destruct (slew_rate_in slew Hs) as (r & Es & _ & Hr).
  destruct (code_step_in step Hp) as (l & Ep & _ & Hl & _).
  rewrite (funcGen_run mode marginH marginL slew step margH margL
             [] _ [] _ HH HL Es Ep).
  pose proof (modes_valid slew step l r Hr Hl mode marginH marginL margH margL
                Hm Hc1 Hc2) as Hmv.
  unfold slew_entry, step_entry in Hmv. rewrite Hmv.
  eexists. repeat split.
Qed.

Lemma funcGen_write_order_witness :
  exists report,
    events (funcGen "triangle" v5_0 v0_0 3 4)
    = [BusWrite DAC_addr regTrigger (nibble cmdErase);
       Sleep f0_5;
       BusWrite DAC_addr regConfig
         (nibble (Spec.config_cmd "triangle" 3 4));
       BusWrite DAC_addr regDAC_MarginH (nibble 4092);
       BusWrite DAC_addr regDAC_MarginL (nibble 0);
       BusWrite DAC_addr regTrigger (nibble (Z.shiftl cmdStartFunc 8));
       Print report]
    /\ outcome (funcGen "triangle" v5_0 v0_0 3 4) = Ok tt
    /\ (F64.to_Q f0_5 == 500 # 1000)%Q
    /\ nibble cmdErase = [0x00; 0x00]
    /\ nibble (Z.shiftl cmdStartFunc 8) = [0x01; 0x00].
Proof.
  apply (funcGen_write_order "triangle" v5_0 v0_0 4092 0 3 4);
    try reflexivity; try lia.
  simpl. auto.
Defined.

(** C4: under the same conditions the frequency in the report is the
    specification's formula for the mode, evaluated in binary64 from the
    table's seconds per LSB, the table's LSB count and the two shifted
    margin codes; for the square mode with slew index 0 the rate is the
    binary64 nearest to 25.6e-6 and the frequency is exactly 19531.25. *)
Theorem C4_funcGen_frequency
        (mode : string) (marginH marginL : F64.float)
        (margH margL slew step : Z) (seconds_per_lsb : F64.float)
        (lsb_count : Z) :
  In mode waveform_modes ->
  0 <= slew <= 14 -> 0 <= step <= 7 ->
  rate_of slew = Some seconds_per_lsb -> lsb_of step = Some lsb_count ->
  calcDACCode marginH = Ok margH -> calcDACCode marginL = Ok margL ->
  0 <= margL <= margH -> margH <= 4092 ->
  reported_frequency (events (funcGen mode marginH marginL slew step))
  = Some (Spec.frequency mode seconds_per_lsb lsb_count margH margL)
  /\ rate_of 0 = Some (F64.lit 256 10000000)
  /\ (F64.to_Q (Spec.frequency "square" (F64.lit 256 10000000) 1 4092 0)
      == 1953125 # 100)%Q.
Proof.
  intros Hm Hs Hp Hrate Hlsb HH HL Hc1 Hc2.
  destruct (slew_rate_in slew Hs) as (r & Es & Er & Hr).
  destruct (code_step_in step Hp) as (l & Ep & El & Hl & _).
  rewrite Er in Hrate. injection Hrate as <-.
  rewrite El in Hlsb. injection Hlsb as <-.
  rewrite (funcGen_run mode marginH marginL slew step margH margL
             [] _ [] _ HH HL Es Ep).
  pose proof (modes_valid slew step l r Hr Hl mode marginH marginL margH margL
                Hm Hc1 Hc2) as Hmv.
  unfold slew_entry, step_entry in Hmv. rewrite Hmv.
  repeat split.
Qed.

Lemma C4_funcGen_frequency_witness :
  reported_frequency (events (funcGen "square" v5_0 v0_0 0 0))
  = Some (Spec.frequency "square" (F64.lit 256 10000000) 1 4092 0).
Proof.
  apply (C4_funcGen_frequency "square" v5_0 v0_0 4092 0 0 0
           (F64.lit 256 10000000) 1);
    try reflexivity; try lia.
  simpl. auto.
Defined.

(** C5, at the failing inputs.  With slew index 16 in square mode
    [funcGen] has already issued the clear-trigger write and the sleep when
    the lookup prints its range message, and it then ends in [TypeError] at
    the subscript of [None]; the same happens in triangle mode with step
    index 8.  In square mode with step index 8 the range message is printed
    and all the register writes are still issued. *)
Theorem C5_out_of_range_failing_inputs :
  funcGen "square" v5_0 v0_0 16 0
  = ([BusWrite DAC_addr regTrigger [0x00; 0x00];
      Sleep f0_5;
      Print (Line msg_slew)],
     Raise TypeError)
  /\ funcGen "triangle" v5_0 v0_0 0 8
     = ([BusWrite DAC_addr regTrigger [0x00; 0x00];
         Sleep f0_5;
         Print (Line msg_step)],
        Raise TypeError)
  /\ (exists report,
        funcGen "square" v5_0 v0_0 0 8
        = ([BusWrite DAC_addr regTrigger [0x00; 0x00];
            Sleep f0_5;
            Print (Line msg_step);
            BusWrite DAC_addr regConfig [0xC0; 0x00];
            BusWrite DAC_addr regDAC_MarginH [0x0F; 0xFC];
            BusWrite DAC_addr regDAC_MarginL [0x00; 0x00];
            BusWrite DAC_addr regTrigger [0x01; 0x00];
            Print report],
           Ok tt)).
Proof.
  split; [vm_compute; reflexivity |].
  split; [vm_compute; reflexivity |].
  eexists. vm_compute. reflexivity.
Qed.

(** *** The lookup tables *)

(** C6, at the failing inputs.  [slew_rate(8)] has the rate 1.6384e-3 s
    per LSB, and the entries 9, 10 and 11, written with [10^-6] where entry
    8 has [10^-3], have the rates 2.048e-6, 2.4576e-6 and 2.8672e-6, a
    thousandth of the 1.25, 1.5 and 1.75 multiples of entry 8.
    [slew_rate(16)] and [code_step(8)] print their range message and return
    [None] as a normal result.  The two entries the claim names are as it
    says: [slew_rate(0)] is [(0x00, 25.6e-6)] and [code_step(4)] is
    [(0x04, 6)]. *)
Theorem C6_lookups_at_failing_inputs :
  (exists r8 r9 r10 r11,
      slew_rate 8 = ret (PyList [PyInt 0x08; PyFloat r8])
      /\ slew_rate 9 = ret (PyList [PyInt 0x09; PyFloat r9])
      /\ slew_rate 10 = ret (PyList [PyInt 0x0A; PyFloat r10])
      /\ slew_rate 11 = ret (PyList [PyInt 0x0B; PyFloat r11])
      /\ (16383 # 10000000 < F64.to_Q r8)%Q
      /\ (F64.to_Q r8 < 16385 # 10000000)%Q
      /\ (2047 # 1000000000 < F64.to_Q r9)%Q
      /\ (F64.to_Q r9 < 2049 # 1000000000)%Q
      /\ (24575 # 10000000000 < F64.to_Q r10)%Q
      /\ (F64.to_Q r10 < 24577 # 10000000000)%Q
      /\ (28671 # 10000000000 < F64.to_Q r11)%Q
      /\ (F64.to_Q r11 < 28673 # 10000000000)%Q)
  /\ slew_rate 16 = ([Print (Line msg_slew)], Ok PyNone)
  /\ code_step 8 = ([Print (Line msg_step)], Ok PyNone)
  /\ slew_rate 0 = ret (PyList [PyInt 0x00; PyFloat (F64.lit 256 10000000)])
  /\ code_step 4 = ret (PyList [PyInt 0x04; PyInt 6]).
Proof.
  split.
  { do 4 eexists.
    repeat (split; [reflexivity |]).
    repeat split; vm_compute; reflexivity. }
  repeat split.
Qed.

(** C7: [slew_rate(15)] returns the bare code 0x0F, an entry without a
    rate; with slew index 15 [funcGen], whatever the mode, the margins and
    the step index, shows no frequency, and its only register write is the
    clear-trigger write that turns the generator off. *)
Theorem C7_slew_15_no_frequency
        (mode : string) (marginH marginL : F64.float) (step : Z) :
  slew_rate 15 = ret slew_15
  /\ slew_15 = PyInt 0x0F
  /\ rate_of 15 = None
  /\ shows_frequency (events (funcGen mode marginH marginL 15 step)) = false
  /\ reported_frequency (events (funcGen mode marginH marginL 15 step)) = None
  /\ bus_writes (events (funcGen mode marginH marginL 15 step))
     = [(regTrigger, nibble cmdErase)].
Proof.
  split; [reflexivity |]. split; [reflexivity |]. split; [reflexivity |].
  destruct (calcDACCode marginH) as [cH | eH] eqn:HH.
  2:{ destruct (funcGen_bad_margin mode marginH marginL 15 step) as [E _].
      { intros c d [Hc _]. congruence. }
      rewrite E. repeat split. }
  destruct (calcDACCode marginL) as [cL | eL] eqn:HL.
  2:{ destruct (funcGen_bad_margin mode marginH marginL 15 step) as [E _].
      { intros c d [_ Hd]. congruence. }
      rewrite E. repeat split. }
  destruct (code_step_quiet step) as (tp & vp & Ep & Hwp & Hfp & _).
  rewrite (funcGen_run mode marginH marginL 15 step cH cL
             [] slew_15 _ _ HH HL eq_refl Ep).
  destruct (modes_no_slew mode marginH marginL cH cL slew_15 vp
              (or_intror eq_refl)) as [Ee _].
  cbn [events fst]. rewrite Ee, app_nil_r. cbn [app].
  split.
  { unfold prologue. cbn [app shows_frequency existsb orb]. exact Hfp. }
  split.
  { unfold reported_frequency, prologue. cbn [app filter].
    unfold shows_frequency in Hfp.
    assert (Hnil : filter (fun ev => match ev with
                                     | Print (GenReport _ _ _ _ _ _) => true
                                     | _ => false
                                     end) tp = []).
    { clear - Hfp. induction tp as [| ev tp IH]; [reflexivity |].
      cbn [existsb filter] in *. apply orb_false_iff in Hfp.
      destruct Hfp as [-> Hfp]. apply IH, Hfp. }
    rewrite Hnil. reflexivity. }
  unfold prologue. cbn [app bus_writes flat_map]. fold (bus_writes tp).
  rewrite Hwp. reflexivity.
Qed.

(** *** Lock and unlock *)

(** C8: [lock] issues exactly two writes, the erase command to the trigger
    register and then the lock command to the config register; [unLock]
    issues exactly two writes, the unlock command to the trigger register and
    then the erase command to the config register. *)
Theorem C8_lock_unlock_sequences :
  events lock = [BusWrite DAC_addr regTrigger (nibble cmdErase);
                 BusWrite DAC_addr regConfig (nibble cmdLock)]
  /\ events unLock = [BusWrite DAC_addr regTrigger (nibble cmdUnlock);
                      BusWrite DAC_addr regConfig (nibble cmdErase)]
  /\ bus_writes (events lock) = [(0xD3, [0x00; 0x00]); (0xD1, [0x20; 0x00])]
  /\ bus_writes (events unLock) = [(0xD3, [0x50; 0x00]); (0xD1, [0x00; 0x00])]
  /\ outcome lock = Ok tt /\ outcome unLock = Ok tt.
Proof. repeat split. Qed.

(** *** Volts to code and back *)

(** C9: for every binary64 voltage between 0.0 and 5.0, [calcDACCode]
    returns a code, the [v] command writes it and displays the voltage
    [((code >> 2) / 1023) * 5], and that voltage differs from the input by
    at most one LSB, 5/1023 V; at the ends, [calcDACCode(0.0) = 0] and
    [calcDACCode(5.0) = 1023 << 2 = 4092]. *)
Theorem C9_voltage_round_trip (v : F64.float) :
  F64.valid v = true -> F64.leb v0_0 v = true -> F64.leb v v5_0 = true ->
  exists code shown,
    calcDACCode v = Ok code
    /\ code_to_voltage code = Ok shown
    /\ (forall verbose,
           events (command_v v verbose)
           = [BusWrite DAC_addr regDAC (nibble code);
              Print (VoltReport verbose shown)])
    /\ (Qabs (F64.to_Q shown - F64.to_Q v) <= 5 # 1023)%Q
    /\ calcDACCode v0_0 = Ok 0
    /\ calcDACCode v5_0 = Ok (Z.shiftl 1023 2)
    /\ Z.shiftl 1023 2 = 4092.
Proof.
  intros Hv H0 H5.
  destruct (range_0_5 v Hv H0 H5) as [Hfin _].
  destruct (calcDACCode_range v Hv H0 H5) as (c & Ec & Hc & Hb).
  destruct (code_to_voltage_bounds c Hc) as (u & Eu & Hfu & Hbu).
  exists (Z.shiftl c 2), u.
  split; [exact Ec |]. split; [exact Eu |].
  split.
  { intros verbose. unfold command_v, setVoltage. rewrite Ec.
    cbn [lift bind write_i2c_block_data emit ret app]. rewrite Eu.
    reflexivity. }
  split.
  { apply to_Q_dist; [exact Hfu | exact Hfin |].
    pose proof P0_E38 as HPE. pose proof E38_pos as HE.
    clear - Hb Hbu HPE HE. lia. }
  repeat split.
Qed.

Lemma C9_voltage_round_trip_witness :
  exists code shown,
    calcDACCode v3_3 = Ok code
    /\ code_to_voltage code = Ok shown
    /\ (forall verbose,
           events (command_v v3_3 verbose)
           = [BusWrite DAC_addr regDAC (nibble code);
              Print (VoltReport verbose shown)])
    /\ (Qabs (F64.to_Q shown - F64.to_Q v3_3) <= 5 # 1023)%Q
    /\ calcDACCode v0_0 = Ok 0
    /\ calcDACCode v5_0 = Ok (Z.shiftl 1023 2)
    /\ Z.shiftl 1023 2 = 4092.
Proof.
  apply (C9_voltage_round_trip v3_3); reflexivity.
Defined.

(** *** Power off and NVM program *)

(** C10: the power-off (high-Z) word and the NVM-program word are both
    [0x0010]; [power("off")] and [NVM("prog")] each issue one write of the
    same payload [(0x00, 0x10)], the first to the config register and the
    second to the trigger register, which are different registers. *)
Theorem C10_power_off_nvm_prog_same_payload :
  cmdPowerOff = 0x0010 /\ cmdNVMProg = 0x0010
  /\ events (power "off"%string) = [BusWrite DAC_addr regConfig [0x00; 0x10]]
  /\ events (NVM "prog"%string) = [BusWrite DAC_addr regTrigger [0x00; 0x10]]
  /\ map snd (bus_writes (events (power "off"%string)))
     = map snd (bus_writes (events (NVM "prog"%string)))
  /\ regConfig <> regTrigger.
Proof. repeat split. discriminate. Qed.

(** ** Further properties of the script *)

(** *** Bytes and codes *)

Lemma nibble_spec (val : Z) :
  exists hi lo,
    nibble val = [hi; lo]
    /\ 0 <= lo < 256 /\ hi * 256 + lo = val
    /\ (0 <= hi < 256 <-> 0 <= val < 65536).
Proof.
  exists (Z.shiftr val 8), (Z.land val 0xFF).
  split; [reflexivity |].
  change 0xFF with (Z.ones 8). rewrite Z.land_ones by lia.
  rewrite Z.shiftr_div_pow2 by lia. change (2 ^ 8) with 256.
  pose proof (Z.div_mod val 256 ltac:(lia)) as Hd.
  pose proof (Z.mod_pos_bound val 256 ltac:(lia)) as Hm.
  repeat split; lia.
Qed.

(** X1: for every register number and every integer value, [write] issues
    exactly one bus write, to that register, of the two numbers [nibble]
    gives, and ends normally: it checks neither the register nor the value.
    The second number is always a byte, the two recombine to the value
    ([hi * 256 + lo = val]), and the first is a byte exactly when the value
    is within 16 bits ([0 <= val < 65536]). *)
Theorem write_two_bytes (reg val : Z) :
  exists hi lo,
    write reg val = ([BusWrite DAC_addr reg [hi; lo]], Ok tt)
    /\ nibble val = [hi; lo]
    /\ 0 <= lo < 256 /\ hi * 256 + lo = val
    /\ (0 <= hi < 256 <-> 0 <= val < 65536).
Proof.
  destruct (nibble_spec val) as (hi & lo & Hn & H).
  exists hi, lo. split; [| split; assumption].
  unfold write. rewrite Hn. reflexivity.
Qed.

Lemma calcDACCode_cases (v : F64.float) :
  (exists n, calcDACCode v = Ok (Z.shiftl n 2))
  \/ calcDACCode v = Raise ValueError
  \/ calcDACCode v = Raise OverflowError.
Proof.
  unfold calcDACCode, Py.fdiv. cbn [Py.as_float]. rewrite float_of_int_5.
  cbn [and_then]. rewrite truediv_v5_0. cbn [and_then].
  destruct (F64.div (F64.mul v f1023_0) v5_0) as [s | s | | s m e];
    cbn [Py.round and_then]; eauto.
Qed.

(** X2: whenever [calcDACCode] returns, its code is a multiple of four (the
    10-bit level sits in bits 2..11), so shifting it right by two and left
    again loses nothing, and the low byte [nibble] gives has its two low
    bits clear. *)
Theorem calcDACCode_multiple_of_4 (v : F64.float) (code : Z) :
  calcDACCode v = Ok code ->
  code mod 4 = 0
  /\ Z.shiftl (Z.shiftr code 2) 2 = code
  /\ exists hi lo, nibble code = [hi; lo] /\ lo mod 4 = 0.
Proof.
  intros H.
  destruct (calcDACCode_cases v) as [[n Hn] | [Hn | Hn]];
    rewrite Hn in H; try discriminate H.
  assert (E : code = Z.shiftl n 2) by congruence.
  rewrite E, Z.shiftl_mul_pow2 by lia. change (2 ^ 2) with 4.
  split; [apply Z.mod_mul; lia |].
  split.
  { rewrite Z.shiftr_div_pow2, Z.shiftl_mul_pow2 by lia.
    change (2 ^ 2) with 4. rewrite Z.div_mul by lia. reflexivity. }
  exists (Z.shiftr (n * 4) 8), (Z.land (n * 4) 0xFF).
  split; [reflexivity |].
  change 0xFF with (Z.ones 8). rewrite Z.land_ones by lia.
  change (2 ^ 8) with (4 * 64).
  rewrite Z.rem_mul_r by lia.
  rewrite Z.mod_mul by lia.
  rewrite Z.add_0_l, Z.mul_comm. apply Z.mod_mul. lia.
Qed.

Lemma calcDACCode_multiple_of_4_witness :
  2700 mod 4 = 0
  /\ Z.shiftl (Z.shiftr 2700 2) 2 = 2700
  /\ exists hi lo, nibble 2700 = [hi; lo] /\ lo mod 4 = 0.
Proof.
  apply (calcDACCode_multiple_of_4 v3_3 2700). vm_compute. reflexivity.
Defined.

(** X3: [setVoltage] is all or nothing.  Either [calcDACCode] returns a
    code, and then [setVoltage] issues the one write of its two bytes to the
    DAC-value register and returns the code; or [calcDACCode] raises
    [ValueError] or [OverflowError], and then [setVoltage] and the [v]
    command issue no bus write and print nothing.  A NaN raises
    [ValueError], an infinity raises [OverflowError]. *)
Theorem setVoltage_all_or_nothing (v : F64.float) (verbose : bool) :
  ((exists code,
       calcDACCode v = Ok code
       /\ setVoltage v = ([BusWrite DAC_addr regDAC (nibble code)], Ok code))
   \/ (exists e,
          calcDACCode v = Raise e
          /\ (e = ValueError \/ e = OverflowError)
          /\ setVoltage v = ([], Raise e)
          /\ command_v v verbose = ([], Raise e)))
  /\ calcDACCode S754_nan = Raise ValueError
  /\ (forall s, calcDACCode (S754_infinity s) = Raise OverflowError).
Proof.
  split; [| split; [reflexivity | intros []; reflexivity]].
  destruct (calcDACCode_cases v) as [[n Hn] | [Hn | Hn]].
  - left. exists (Z.shiftl n 2). split; [exact Hn |].
    unfold setVoltage. rewrite Hn. reflexivity.
  - right. exists ValueError. unfold command_v, setVoltage. rewrite Hn.
    repeat split; auto.
  - right. exists OverflowError. unfold command_v, setVoltage. rewrite Hn.
    repeat split; auto.
Qed.

(** X4: for every binary64 voltage between 0.0 and 5.0, [setVoltage] ends
    normally with a code between 0 and 4092 and writes two valid bytes to
    the DAC-value register: the high byte is at most [0x0F], the low byte at
    most [0xFC], and they recombine to the code. *)
Theorem setVoltage_payload_in_range (v : F64.float) :
  F64.valid v = true -> F64.leb v0_0 v = true -> F64.leb v v5_0 = true ->
  exists code hi lo,
    setVoltage v = ([BusWrite DAC_addr regDAC [hi; lo]], Ok code)
    /\ 0 <= code <= 4092
    /\ 0 <= hi <= 15 /\ 0 <= lo <= 252
    /\ hi * 256 + lo = code.
Proof.
  intros Hv H0 H5.
  destruct (calcDACCode_range v Hv H0 H5) as (c & Ec & Hc & _).
  destruct (nibble_spec (Z.shiftl c 2)) as (hi & lo & Hn & Hlo & Hsum & _).
  exists (Z.shiftl c 2), hi, lo.
  split.
  { unfold setVoltage. rewrite Ec. cbn [lift bind]. rewrite Hn. reflexivity. }
  rewrite Z.shiftl_mul_pow2 in * by lia. change (2 ^ 2) with 4 in *.
  assert (Hm : lo mod 4 = 0).
  { assert (E : lo = Z.land (c * 4) 0xFF) by (unfold nibble in Hn; congruence).
    rewrite E.
    change 0xFF with (Z.ones 8). rewrite Z.land_ones by lia.
    change (2 ^ 8) with (4 * 64).
    rewrite Z.rem_mul_r by lia. rewrite Z.mod_mul by lia.
    rewrite Z.add_0_l, Z.mul_comm. apply Z.mod_mul. lia. }
  pose proof (Z.div_mod lo 4 ltac:(lia)) as Hd.
  repeat split; lia.
Qed.

Lemma setVoltage_payload_in_range_witness :
  exists code hi lo,
    setVoltage v3_3 = ([BusWrite DAC_addr regDAC [hi; lo]], Ok code)
    /\ 0 <= code <= 4092
    /\ 0 <= hi <= 15 /\ 0 <= lo <= 252
    /\ hi * 256 + lo = code.
Proof.
  apply (setVoltage_payload_in_range v3_3); reflexivity.
Defined.

(** *** The displayed voltage *)








Lemma code_to_voltage_bottom : code_to_voltage (Z.shiftl 0 2) = Ok v0_0.
Proof. vm_compute. reflexivity. Qed.



(** *** The medical alarm, [power] and [NVM] outside their arguments *)

Lemma eqb_neq_false (a b : string) : a <> b -> (a =? b)%string = false.
Proof. intros H. apply String.eqb_neq. exact H. Qed.

(** A lookup of the medical tables outside 0..3 falls through every branch. *)
Lemma med_lookup_cases (i : Z) :
  ((i < 0 \/ 3 < i)
   /\ calcDeadtime i = PyNone /\ calcPulse_on_time i = PyNone
   /\ calcPulse_off_time i = PyNone)
  \/ i = 0 \/ i = 1 \/ i = 2 \/ i = 3.
Proof.
  destruct (Z.eq_dec i 0); [auto |]. destruct (Z.eq_dec i 1); [auto |].
  destruct (Z.eq_dec i 2); [auto |]. destruct (Z.eq_dec i 3); [auto 6 |].
  left. split; [lia |].
  unfold calcDeadtime, calcPulse_on_time, calcPulse_off_time.
  eqb_ladder. auto.
Qed.

(** X7: [medGen] outside its valid arguments.  With a mode other than [l],
    [m], [h] it does nothing at all and ends normally, whatever the indices.
    With one of the three modes and a deadtime, on or off index outside 0..3
    the lookup falls through to [None], the subscript raises [TypeError],
    and nothing is written or printed. *)
Theorem medGen_edge_cases (mode : string) (deadtime on off : Z) :
  (~ In mode ["l"; "m"; "h"]%string ->
   medGen mode deadtime on off = ([], Ok tt))
  /\ (In mode ["l"; "m"; "h"]%string ->
      (deadtime < 0 \/ 3 < deadtime) \/ (on < 0 \/ 3 < on)
      \/ (off < 0 \/ 3 < off) ->
      medGen mode deadtime on off = ([], Raise TypeError)).
Proof.
  split.
  - intros H. unfold medGen.
    rewrite !eqb_neq_false; [reflexivity | | |];
      intros ->; apply H; cbn; auto.
  - intros Hm Hout.
    destruct (med_lookup_cases deadtime)
      as [(Hd & Ed & _ & _) | Hd];
      destruct (med_lookup_cases on) as [(Hn & _ & En & _) | Hn];
      destruct (med_lookup_cases off) as [(Hf & _ & _ & Ef) | Hf];
      try (exfalso; lia);
      unfold medGen;
      repeat match goal with
             | H : calcDeadtime _ = PyNone |- _ => rewrite H; clear H
             | H : calcPulse_on_time _ = PyNone |- _ => rewrite H; clear H
             | H : calcPulse_off_time _ = PyNone |- _ => rewrite H; clear H
             | H : _ = _ \/ _ |- _ => destruct H as [-> | H]
             | H : ?x = _ |- _ => is_var x; subst x
             end;
      destruct Hm as [<- | [<- | [<- | []]]]; reflexivity.
Qed.

Lemma medGen_edge_cases_witness :
  medGen "x"%string 9 0 0 = ([], Ok tt)
  /\ medGen "h"%string 4 0 0 = ([], Raise TypeError).
Proof.
  split.
  - apply (medGen_edge_cases "x"%string 9 0 0).
    cbn. intros [H | [H | [H | []]]]; discriminate H.
  - apply (medGen_edge_cases "h"%string 4 0 0).
    + cbn. auto.
    + left. right. lia.
Defined.

(** X8: for valid arguments the fields of the word [medGen] writes do not
    overlap, so the arguments can be read back from the two bytes: the high
    byte is the priority code of the mode, and in the low byte bits 4..5 are
    the deadtime index, bits 2..3 the off index and bits 0..1 the on
    index. *)
Theorem medGen_word_fields (mode : string) (deadtime on off : Z) :
  In mode ["l"; "m"; "h"]%string ->
  0 <= deadtime <= 3 -> 0 <= on <= 3 -> 0 <= off <= 3 ->
  exists hi lo,
    bus_writes (events (medGen mode deadtime on off))
    = [(regMedConfig, [hi; lo])]
    /\ ((mode = "l"%string /\ hi = medAlarmLP)
        \/ (mode = "m"%string /\ hi = medAlarmMP)
        \/ (mode = "h"%string /\ hi = medAlarmHP))
    /\ Z.shiftr lo 4 = deadtime
    /\ Z.land (Z.shiftr lo 2) 3 = off
    /\ Z.land lo 3 = on.
Proof.
  intros Hm Hd Hon Hoff.
  in_range_cases deadtime; in_range_cases on; in_range_cases off;
    destruct Hm as [<- | [<- | [<- | []]]];
    do 2 eexists; (split; [reflexivity |]); (split; [auto |]);
    repeat split.
Qed.

Lemma medGen_word_fields_witness :
  exists hi lo,
    bus_writes (events (medGen "m"%string 2 3 1))
    = [(regMedConfig, [hi; lo])]
    /\ (("m"%string = "l"%string /\ hi = medAlarmLP)
        \/ ("m"%string = "m"%string /\ hi = medAlarmMP)
        \/ ("m"%string = "h"%string /\ hi = medAlarmHP))
    /\ Z.shiftr lo 4 = 2
    /\ Z.land (Z.shiftr lo 2) 3 = 1
    /\ Z.land lo 3 = 3.
Proof.
  apply (medGen_word_fields "m"%string 2 3 1); simpl; try lia; auto.
Defined.

(** X9: [power] and [NVM] never raise and issue at most one write.  For
    [on], [off], [10k] [power] writes one word to the config register, a
    word with no bit inside [cmdPowerOnMask] ([0xFFE7]: only bits 3 and 4
    may be set), and zero exactly for [on]; for any other string it does
    nothing.  For [prog] and [reload] [NVM] writes its own command word to
    the trigger register; for any other string it does nothing. *)
Theorem power_and_NVM_words (val : string) :
  ((exists word,
       In val ["on"; "off"; "10k"]%string
       /\ power val = ([BusWrite DAC_addr regConfig (nibble word)], Ok tt)
       /\ Z.land word cmdPowerOnMask = 0
       /\ (val = "on"%string <-> word = 0))
   \/ (~ In val ["on"; "off"; "10k"]%string /\ power val = ([], Ok tt)))
  /\ ((exists word,
          In val ["prog"; "reload"]%string
          /\ NVM val = ([BusWrite DAC_addr regTrigger (nibble word)], Ok tt)
          /\ (val = "prog"%string <-> word = cmdNVMProg)
          /\ (val = "reload"%string <-> word = cmdNVMReload))
      \/ (~ In val ["prog"; "reload"]%string /\ NVM val = ([], Ok tt))).
Proof.
  split.
  - destruct (String.eqb_spec val "on") as [-> | H1].
    { left. exists cmdPowerOn. cbn. intuition. }
    destruct (String.eqb_spec val "off") as [-> | H2].
    { left. exists cmdPowerOff. cbn.
      intuition; discriminate. }
    destruct (String.eqb_spec val "10k") as [-> | H3].
    { left. exists cmdPowerOff_10k. cbn.
      intuition; discriminate. }
    right. split.
    + cbn. intuition.
    + unfold power. rewrite !eqb_neq_false by assumption. reflexivity.
  - destruct (String.eqb_spec val "prog") as [-> | H1].
    { left. exists cmdNVMProg. cbn.
      intuition; discriminate. }
    destruct (String.eqb_spec val "reload") as [-> | H2].
    { left. exists cmdNVMReload. cbn.
      intuition; discriminate. }
    right. split.
    + cbn. intuition.
    + unfold NVM. rewrite !eqb_neq_false by assumption. reflexivity.
Qed.

(** *** The function generator: the config word and the edge cases *)

Lemma bus_writes_app (t1 t2 : trace) :
  bus_writes (t1 ++ t2) = bus_writes t1 ++ bus_writes t2.
Proof. unfold bus_writes. apply flat_map_app. Qed.

Lemma shows_frequency_app (t1 t2 : trace) :
  shows_frequency (t1 ++ t2) = shows_frequency t1 || shows_frequency t2.
Proof. unfold shows_frequency. apply existsb_app. Qed.

(** The fields of the config word. *)
Lemma config_cmd_fields (mode : string) (slew step : Z) :
  In mode waveform_modes -> 0 <= slew <= 14 -> 0 <= step <= 7 ->
  let cmd := Spec.config_cmd mode slew step in
  0 <= cmd < 2 ^ 16
  /\ ((mode = "square"%string /\ Z.shiftr cmd 14 = cmdSquare)
      \/ (mode = "triangle"%string /\ Z.shiftr cmd 14 = cmdTriangle)
      \/ (mode = "sawH"%string /\ Z.shiftr cmd 14 = cmdSawH)
      \/ (mode = "sawL"%string /\ Z.shiftr cmd 14 = cmdSawL))
  /\ Z.land (Z.shiftr cmd 5) 0xF = slew
  /\ Z.land (Z.shiftr cmd 9) 0x7
     = (if (mode =? "square")%string then 0 else step)
  /\ Z.land cmd 0x1F = 0.
Proof.
  intros Hm Hs Hp.
  assert (Es : slew = 0 \/ slew = 1 \/ slew = 2 \/ slew = 3 \/ slew = 4
               \/ slew = 5 \/ slew = 6 \/ slew = 7 \/ slew = 8 \/ slew = 9
               \/ slew = 10 \/ slew = 11 \/ slew = 12 \/ slew = 13
               \/ slew = 14) by lia.
  assert (Ep : step = 0 \/ step = 1 \/ step = 2 \/ step = 3 \/ step = 4
               \/ step = 5 \/ step = 6 \/ step = 7) by lia.
  clear Hs Hp.
  destruct Hm as [<- | [<- | [<- | [<- | []]]]];
    repeat (destruct Es as [-> | Es]);
    try subst slew;
    repeat (destruct Ep as [-> | Ep]);
    try subst step;
    vm_compute; intuition congruence.
Qed.

(** X10: for valid arguments (as in X19) the register writes of [funcGen]
    are the clear-trigger write, the config word, the two margin codes and
    the start command, and the config word fits 16 bits with fields that
    can be read back: bits 14..15 are the mode code, bits 5..8 the slew
    index, bits 9..11 the step index (zero in square mode, which does not
    encode the step), and bits 0..4 are clear. *)
Theorem funcGen_config_fields
        (mode : string) (marginH marginL : F64.float)
        (margH margL slew step : Z) :
  In mode waveform_modes ->
  0 <= slew <= 14 -> 0 <= step <= 7 ->
  calcDACCode marginH = Ok margH -> calcDACCode marginL = Ok margL ->
  0 <= margL <= margH -> margH <= 4092 ->
  exists cmd,
    bus_writes (events (funcGen mode marginH marginL slew step))
    = [(regTrigger, nibble cmdErase);
       (regConfig, nibble cmd);
       (regDAC_MarginH, nibble margH);
       (regDAC_MarginL, nibble margL);
       (regTrigger, nibble (Z.shiftl cmdStartFunc 8))]
    /\ 0 <= cmd < 2 ^ 16
    /\ ((mode = "square"%string /\ Z.shiftr cmd 14 = cmdSquare)
        \/ (mode = "triangle"%string /\ Z.shiftr cmd 14 = cmdTriangle)
        \/ (mode = "sawH"%string /\ Z.shiftr cmd 14 = cmdSawH)
        \/ (mode = "sawL"%string /\ Z.shiftr cmd 14 = cmdSawL))
    /\ Z.land (Z.shiftr cmd 5) 0xF = slew
    /\ Z.land (Z.shiftr cmd 9) 0x7
       = (if (mode =? "square")%string then 0 else step)
    /\ Z.land cmd 0x1F = 0.
Proof.
  intros Hm Hs Hp HH HL Hc1 Hc2.
  destruct (slew_rate_in slew Hs) as (r & Es & _ & Hr).
  destruct (code_step_in step Hp) as (l & Ep & _ & Hl & _).
  rewrite (funcGen_run mode marginH marginL slew step margH margL
             [] _ [] _ HH HL Es Ep).
  pose proof (modes_valid slew step l r Hr Hl mode marginH marginL margH margL
                Hm Hc1 Hc2) as Hmv.
  unfold slew_entry, step_entry in Hmv. rewrite Hmv.
  exists (Spec.config_cmd mode slew step).
  split; [reflexivity |].
  apply (config_cmd_fields mode slew step Hm Hs Hp).
Qed.

Lemma funcGen_config_fields_witness :
  exists cmd,
    bus_writes (events (funcGen "sawH" v5_0 v0_0 3 4))
    = [(regTrigger, nibble cmdErase);
       (regConfig, nibble cmd);
       (regDAC_MarginH, nibble 4092);
       (regDAC_MarginL, nibble 0);
       (regTrigger, nibble (Z.shiftl cmdStartFunc 8))]
    /\ 0 <= cmd < 2 ^ 16
    /\ (("sawH"%string = "square"%string /\ Z.shiftr cmd 14 = cmdSquare)
        \/ ("sawH"%string = "triangle"%string /\ Z.shiftr cmd 14 = cmdTriangle)
        \/ ("sawH"%string = "sawH"%string /\ Z.shiftr cmd 14 = cmdSawH)
        \/ ("sawH"%string = "sawL"%string /\ Z.shiftr cmd 14 = cmdSawL))
    /\ Z.land (Z.shiftr cmd 5) 0xF = 3
    /\ Z.land (Z.shiftr cmd 9) 0x7 = 4
    /\ Z.land cmd 0x1F = 0.
Proof.
  apply (funcGen_config_fields "sawH" v5_0 v0_0 4092 0 3 4);
    try reflexivity; try lia.
  simpl. auto.
Defined.

(** The square branch reads neither the step entry nor the margins. *)
Lemma modes_square (marginH marginL : F64.float) (cH cL i : Z)
      (r : spec_float) (step : pyval) :
  normal_between (-72) (-62) r = true ->
  funcGen_modes "square" marginH marginL cH cL (PyList [PyInt i; PyFloat r])
                step
  = ([BusWrite DAC_addr regConfig
        (nibble (Z.lor (Z.shiftl cmdSquare 14) (Z.shiftl i 5)));
      BusWrite DAC_addr regDAC_MarginH (nibble cH);
      BusWrite DAC_addr regDAC_MarginL (nibble cL);
      BusWrite DAC_addr regTrigger (nibble (Z.shiftl cmdStartFunc 8));
      Print (GenReport "square" marginH marginL i None
               (F64.div f1_0 (F64.mul f2_0 r)))],
     Ok tt).
Proof.
  intros Hr. unfold funcGen_modes. cbn [String.eqb Ascii.eqb Bool.eqb].
  pose proof (square_cmd_ok i 0 r) as Hc.
  pose proof (square_freq_ok i 1 r Hr cH cL) as Hf.
  unfold slew_entry in Hc, Hf. rewrite Hc, Hf. reflexivity.
Qed.

(** X11: in square mode [funcGen] uses neither the step index nor the order
    of the margins: for a slew index 0..14, any step index (in range or not)
    and any two margins that convert to codes, it ends normally, shows a
    frequency, and issues the same five register writes, none of which
    depends on the step index. *)
Theorem funcGen_square_ignores_step
        (marginH marginL : F64.float) (margH margL slew step : Z) :
  0 <= slew <= 14 ->
  calcDACCode marginH = Ok margH -> calcDACCode marginL = Ok margL ->
  bus_writes (events (funcGen "square" marginH marginL slew step))
  = [(regTrigger, nibble cmdErase);
     (regConfig, nibble (Z.lor (Z.shiftl cmdSquare 14) (Z.shiftl slew 5)));
     (regDAC_MarginH, nibble margH);
     (regDAC_MarginL, nibble margL);
     (regTrigger, nibble (Z.shiftl cmdStartFunc 8))]
  /\ outcome (funcGen "square" marginH marginL slew step) = Ok tt
  /\ shows_frequency (events (funcGen "square" marginH marginL slew step))
     = true.
Proof.
  intros Hs HH HL.
  destruct (slew_rate_in slew Hs) as (r & Es & _ & Hr).
  destruct (code_step_quiet step) as (tp & vp & Ep & Hwp & Hfp & _).
  rewrite (funcGen_run "square" marginH marginL slew step margH margL
             [] _ tp vp HH HL Es Ep).
  rewrite (modes_square marginH marginL margH margL slew r vp Hr).
  cbn [events outcome fst snd app].
  split.
  { rewrite !bus_writes_app, Hwp. reflexivity. }
  split; [reflexivity |].
  rewrite !shows_frequency_app, Hfp. reflexivity.
Qed.

Lemma funcGen_square_ignores_step_witness :
  bus_writes (events (funcGen "square" v0_0 v5_0 2 99))
  = [(regTrigger, nibble cmdErase);
     (regConfig, nibble (Z.lor (Z.shiftl cmdSquare 14) (Z.shiftl 2 5)));
     (regDAC_MarginH, nibble 0);
     (regDAC_MarginL, nibble 4092);
     (regTrigger, nibble (Z.shiftl cmdStartFunc 8))]
  /\ outcome (funcGen "square" v0_0 v5_0 2 99) = Ok tt
  /\ shows_frequency (events (funcGen "square" v0_0 v5_0 2 99)) = true.
Proof.
  apply (funcGen_square_ignores_step v0_0 v5_0 0 4092 2 99);
    [lia | reflexivity | reflexivity].
Defined.

Lemma modes_unknown (mode : string) marginH marginL cH cL slew step :
  ~ In mode waveform_modes ->
  funcGen_modes mode marginH marginL cH cL slew step = ([], Ok tt).
Proof.
  intros H. unfold funcGen_modes.
  rewrite !eqb_neq_false; [reflexivity | | | |];
    intros ->; apply H; cbn; auto.
Qed.

(** X12: with a mode that is none of [square], [triangle], [sawH], [sawL],
    [funcGen] still turns the generator off and then does nothing more: its
    only register write is the clear-trigger write, it shows no frequency,
    and it ends normally, whatever the slew and step indices. *)
Theorem funcGen_unknown_mode
        (mode : string) (marginH marginL : F64.float)
        (margH margL slew step : Z) :
  ~ In mode waveform_modes ->
  calcDACCode marginH = Ok margH -> calcDACCode marginL = Ok margL ->
  bus_writes (events (funcGen mode marginH marginL slew step))
  = [(regTrigger, nibble cmdErase)]
  /\ shows_frequency (events (funcGen mode marginH marginL slew step)) = false
  /\ outcome (funcGen mode marginH marginL slew step) = Ok tt.
Proof.
  intros Hm HH HL.
  destruct (slew_rate_quiet slew) as (ts & vs & Es & Hws & Hfs).
  destruct (code_step_quiet step) as (tp & vp & Ep & Hwp & Hfp & _).
  rewrite (funcGen_run mode marginH marginL slew step margH margL
             ts vs tp vp HH HL Es Ep).
  rewrite (modes_unknown mode marginH marginL margH margL vs vp Hm).
  cbn [events outcome fst snd]. rewrite app_nil_r.
  split.
  { rewrite !bus_writes_app, Hws, Hwp. reflexivity. }
  split; [| reflexivity].
  rewrite !shows_frequency_app, Hfs, Hfp. reflexivity.
Qed.

Lemma funcGen_unknown_mode_witness :
  bus_writes (events (funcGen "sine" v5_0 v0_0 3 4))
  = [(regTrigger, nibble cmdErase)]
  /\ shows_frequency (events (funcGen "sine" v5_0 v0_0 3 4)) = false
  /\ outcome (funcGen "sine" v5_0 v0_0 3 4) = Ok tt.
Proof.
  apply (funcGen_unknown_mode "sine" v5_0 v0_0 4092 0 3 4);
    [| reflexivity | reflexivity].
  cbn. intros [H | [H | [H | [H | []]]]]; discriminate H.
Defined.

(** With a code span of zero the slope frequencies divide by zero. *)
Lemma slope_freq_zero_span (i j l : Z) (r : spec_float) (margH margL : Z) :
  normal_between (-72) (-62) r = true -> 1 <= l <= 32 ->
  code_span margH margL = 0 ->
  triangle_freq (PyList [PyInt i; PyFloat r]) (PyList [PyInt j; PyInt l])
                margH margL = Raise ZeroDivisionError
  /\ saw_freq (PyList [PyInt i; PyFloat r]) (PyList [PyInt j; PyInt l])
              margH margL = Raise ZeroDivisionError.
Proof.
  intros Hr Hl Hz.
  destruct (of_Z_small l ltac:(lia)) as [Hel Hfl].
  destruct (exact_int_spec l _ Hel) as [Hfinl Hscl].
  assert (Hnz : F64.is_zero (F64.of_Z l) = false).
  { apply is_zero_pos. rewrite Hscl. pose proof P0_pos.
    apply Z.mul_pos_pos; lia. }
  destruct (double_rate r Hr) as [Hf2 _].
  destruct (rate_bounds r Hr) as [Hf1 _].
  unfold triangle_freq, saw_freq, Py.fmul, Py.fdiv.
  cbn [Py.getitem nth_error and_then Py.as_float].
  rewrite Hz, Hfl. cbn [and_then Py.float_of_int].
  change (F64.of_Z 0) with (S754_zero false). cbn [and_then].
  unfold Py.truediv. rewrite Hnz. cbn [and_then].
  split.
  - destruct (F64.mul f2_0 r) as [s | s | | s m e];
      cbn [fin_nonneg] in Hf2; try contradiction;
      destruct (F64.of_Z l) as [s' | s' | | s' m' e'];
      try discriminate Hnz; cbn in Hfinl; try contradiction;
      reflexivity.
  - destruct r as [s | s | | s m e];
      cbn [fin_nonneg] in Hf1; try contradiction;
      destruct (F64.of_Z l) as [s' | s' | | s' m' e'];
      try discriminate Hnz; cbn in Hfinl; try contradiction;
      reflexivity.
Qed.

Lemma modes_zero_span (mode : string) marginH marginL margH margL
      (i j l : Z) (r : spec_float) :
  In mode ["triangle"; "sawH"; "sawL"]%string ->
  normal_between (-72) (-62) r = true -> 1 <= l <= 32 ->
  code_span margH margL = 0 ->
  funcGen_modes mode marginH marginL margH margL
                (PyList [PyInt i; PyFloat r]) (PyList [PyInt j; PyInt l])
  = ([], Raise ZeroDivisionError).
Proof.
  intros Hm Hr Hl Hz.
  destruct (slope_freq_zero_span i j l r margH margL Hr Hl Hz) as [Ht Hs].
  destruct Hm as [<- | [<- | [<- | []]]]; unfold funcGen_modes;
    cbn [String.eqb Ascii.eqb Bool.eqb].
  - change cmdTriangle with (Spec.mode_code "triangle").
    pose proof (slope_cmd_ok i j l r "triangle" ltac:(cbn; auto)) as Hc.
    unfold slew_entry, step_entry in Hc. rewrite Hc, Ht. reflexivity.
  - change cmdSawH with (Spec.mode_code "sawH").
    pose proof (slope_cmd_ok i j l r "sawH" ltac:(cbn; auto)) as Hc.
    unfold slew_entry, step_entry in Hc. rewrite Hc, Hs. reflexivity.
  - change cmdSawL with (Spec.mode_code "sawL").
    pose proof (slope_cmd_ok i j l r "sawL" ltac:(cbn; auto)) as Hc.
    unfold slew_entry, step_entry in Hc. rewrite Hc, Hs. reflexivity.
Qed.

(** X13: in the triangle and sawtooth modes, when the margin-low code is
    one level above the margin-high code ([margL = margH + 4]) the span
    [((margH - margL) >> 2) + 1] is zero and the frequency formula divides
    by zero: [funcGen] raises [ZeroDivisionError] after the clear-trigger
    write, before the config, margin and start writes. *)
Theorem funcGen_zero_span
        (mode : string) (marginH marginL : F64.float)
        (margH margL slew step : Z) :
  In mode ["triangle"; "sawH"; "sawL"]%string ->
  0 <= slew <= 14 -> 0 <= step <= 7 ->
  calcDACCode marginH = Ok margH -> calcDACCode marginL = Ok margL ->
  margL = margH + 4 ->
  bus_writes (events (funcGen mode marginH marginL slew step))
  = [(regTrigger, nibble cmdErase)]
  /\ outcome (funcGen mode marginH marginL slew step)
     = Raise ZeroDivisionError.
Proof.
  intros Hm Hs Hp HH HL Hspan.
  destruct (slew_rate_in slew Hs) as (r & Es & _ & Hr).
  destruct (code_step_in step Hp) as (l & Ep & _ & Hl & _).
  rewrite (funcGen_run mode marginH marginL slew step margH margL
             [] _ [] _ HH HL Es Ep).
  rewrite (modes_zero_span mode marginH marginL margH margL slew step l r
             Hm Hr Hl).
  - split; reflexivity.
  - subst margL. unfold code_span.
    replace (margH - (margH + 4)) with (-4) by ring. reflexivity.
Qed.

Lemma funcGen_zero_span_witness :
  bus_writes (events (funcGen "triangle" v0_0 (F64.lit 5 1000) 0 0))
  = [(regTrigger, nibble cmdErase)]
  /\ outcome (funcGen "triangle" v0_0 (F64.lit 5 1000) 0 0)
     = Raise ZeroDivisionError.
Proof.
  apply (funcGen_zero_span "triangle" v0_0 (F64.lit 5 1000) 0 4 0 0);
    try reflexivity; try lia.
  simpl. auto.
Defined.

(** *** The slew table *)

(** X14: the seconds per LSB of the slew table are not ordered by index.
    They increase strictly from index 0 to index 8, index 8 has the largest
    rate of the table, and every index from 9 to 14 has a rate below that of
    index 0. *)
Theorem slew_rates_not_ordered (i : Z) :
  (0 <= i <= 7 -> rate_lt i (i + 1) = true)
  /\ (9 <= i <= 14 -> rate_lt i 0 = true)
  /\ (0 <= i <= 14 -> i <> 8 -> rate_lt i 8 = true).
Proof.
  split; [| split].
  - intros H.
    assert (E : i = 0 \/ i = 1 \/ i = 2 \/ i = 3 \/ i = 4 \/ i = 5 \/ i = 6
                \/ i = 7) by lia.
    repeat (destruct E as [-> | E]; [vm_compute; reflexivity |]).
    subst. vm_compute. reflexivity.
  - intros H.
    assert (E : i = 9 \/ i = 10 \/ i = 11 \/ i = 12 \/ i = 13 \/ i = 14)
      by lia.
    repeat (destruct E as [-> | E]; [vm_compute; reflexivity |]).
    subst. vm_compute. reflexivity.
  - intros H Hne.
    assert (E : i = 0 \/ i = 1 \/ i = 2 \/ i = 3 \/ i = 4 \/ i = 5 \/ i = 6
                \/ i = 7 \/ i = 9 \/ i = 10 \/ i = 11 \/ i = 12 \/ i = 13
                \/ i = 14) by lia.
    repeat (destruct E as [-> | E]; [vm_compute; reflexivity |]).
    subst. vm_compute. reflexivity.
Qed.

Lemma slew_rates_not_ordered_witness :
  rate_lt 7 (7 + 1) = true /\ rate_lt 9 0 = true /\ rate_lt 9 8 = true.
Proof.
  split; [| split].
  - apply (slew_rates_not_ordered 7); lia.
  - apply (slew_rates_not_ordered 9); lia.
  - apply (slew_rates_not_ordered 9); lia.
Defined.

(** *** The argument checks and the fixed commands *)

(** X15: the two argument checks.  When [int(arg)] fails, both raise
    [ArgumentTypeError] with the message of the [ValueError].  Otherwise
    [check_range_margin] accepts 0..5 and [check_range_slewRate] accepts
    0..15, and what they return for an accepted argument is [None], not the
    integer; for a rejected one both raise [ArgumentTypeError] with the same
    message, which names the bounds 0 and 5 also in
    [check_range_slewRate]. *)
Theorem check_range_returns_none
        (py_int : string -> Z + string) (arg : string) :
  (forall err, py_int arg = inr err ->
     check_range_margin py_int arg = ArgumentTypeError err
     /\ check_range_slewRate py_int arg = ArgumentTypeError err)
  /\ (forall value, py_int arg = inl value ->
        (0 <= value <= 5 -> check_range_margin py_int arg = Returns PyNone)
        /\ (0 <= value <= 15 ->
            check_range_slewRate py_int arg = Returns PyNone)
        /\ (value < 0 \/ 5 < value ->
            check_range_margin py_int arg
            = ArgumentTypeError
                ("Expected 0 <= value <= 5, got value = "
                   ++ str_of_int value))
        /\ (value < 0 \/ 15 < value ->
            check_range_slewRate py_int arg
            = ArgumentTypeError
                ("Expected 0 <= value <= 5, got value = "
                   ++ str_of_int value))).
Proof.
  unfold check_range_margin, check_range_slewRate. split.
  - intros err E. rewrite E. split; reflexivity.
  - intros value E. rewrite E.
    repeat split; intros H.
    + destruct (Z.ltb_spec value 0); [lia |].
      destruct (Z.gtb_spec value 5); [lia |]. reflexivity.
    + destruct (Z.ltb_spec value 0); [lia |].
      destruct (Z.gtb_spec value 15); [lia |]. reflexivity.
    + destruct (Z.ltb_spec value 0); [reflexivity |].
      destruct (Z.gtb_spec value 5); [reflexivity | lia].
    + destruct (Z.ltb_spec value 0); [reflexivity |].
      destruct (Z.gtb_spec value 15); [reflexivity | lia].
Qed.

Lemma check_range_returns_none_witness :
  check_range_slewRate (fun _ => inl 16) "16"
  = ArgumentTypeError "Expected 0 <= value <= 5, got value = 16".
Proof.
  apply (proj2 (check_range_returns_none (fun _ => inl 16) "16") 16 eq_refl).
  lia.
Defined.

(** X16: the fixed commands are instances of the generic [write]: [write]
    is one bus write of [nibble val]; [reset], [factoryReset] and
    [funcGenOff] are [write] to the trigger register with their command
    word; [lock] is [funcGenOff] followed by the write of the lock word to
    the config register, and [unLock] is the write of the unlock word to the
    trigger register followed by what [power("on")] issues. *)
Theorem trigger_commands :
  reset = ([BusWrite DAC_addr regTrigger [0x00; 0x0A]], Ok tt)
  /\ factoryReset = ([BusWrite DAC_addr regTrigger [0x02; 0x00]], Ok tt)
  /\ funcGenOff = ([BusWrite DAC_addr regTrigger [0x00; 0x00]], Ok tt)
  /\ (forall reg val, write reg val
                      = write_i2c_block_data DAC_addr reg (nibble val))
  /\ reset = write regTrigger cmdReset
  /\ factoryReset = write regTrigger cmdFactory
  /\ funcGenOff = write regTrigger cmdErase
  /\ lock = (funcGenOff ;;; write regConfig cmdLock)
  /\ unLock = (write regTrigger cmdUnlock ;;; power "on").
Proof. repeat split. Qed.

(** *** The sign of the reported frequency *)

Lemma pow2_shift (a n : Z) :
  0 <= a -> 0 <= n -> 2 ^ (a + n) = 2 ^ n * 2 ^ a.
Proof. intros Ha Hn. rewrite Z.pow_add_r by lia. ring. Qed.

(** A quotient of positive floats whose ratio lies between [2^-64] and
    [2^64] is a positive finite float. *)
Lemma div_finite_positive (mx my : positive) (ex ey : Z) :
  - 1074 <= ex <= 971 -> - 1074 <= ey <= 971 ->
  Zpos mx < 2 ^ 53 ->
  Zpos mx * 2 ^ (ex + 1074) <= 2 ^ 64 * (Zpos my * 2 ^ (ey + 1074)) ->
  Zpos my * 2 ^ (ey + 1074) <= 2 ^ 64 * (Zpos mx * 2 ^ (ex + 1074)) ->
  exists m e, F64.div (S754_finite false mx ex) (S754_finite false my ey)
              = S754_finite false m e.
Proof.
  intros Hex Hey Hmx Hr1 Hr2.
  unfold F64.div, SFdiv, SFdiv_core_binary, F64.prec, F64.emax. cbn [xorb].
  set (d1 := Zdigits2 (Zpos mx)). set (d2 := Zdigits2 (Zpos my)).
  destruct (Zdigits2_spec (Zpos mx) ltac:(lia)) as [Hd1 [Hd1l Hd1u]].
  destruct (Zdigits2_spec (Zpos my) ltac:(lia)) as [Hd2 [Hd2l Hd2u]].
  fold d1 in Hd1, Hd1l, Hd1u. fold d2 in Hd2, Hd2l, Hd2u.
  assert (Hd153 : d1 <= 53).
  { assert (2 ^ (d1 - 1) < 2 ^ 53) by lia.
    apply Z.pow_lt_mono_r_iff in H; lia. }
  assert (HX : 0 < 2 ^ (ex + 1074)) by (apply Z.pow_pos_nonneg; lia).
  assert (HY : 0 < 2 ^ (ey + 1074)) by (apply Z.pow_pos_nonneg; lia).
  (* the magnitudes differ by at most 64 binary digits *)
  assert (Huv : d1 + ex - (d2 + ey) <= 64).
  { assert (H : 2 ^ (d1 - 1 + (ex + 1074)) < 2 ^ (64 + d2 + (ey + 1074))).
    { rewrite (Z.pow_add_r 2 (d1 - 1)), (Z.pow_add_r 2 (64 + d2)),
        (Z.pow_add_r 2 64 d2) by lia.
      assert (2 ^ (d1 - 1) * 2 ^ (ex + 1074) <= Zpos mx * 2 ^ (ex + 1074))
        by (apply Z.mul_le_mono_nonneg_r; lia).
      assert (Zpos my * 2 ^ (ey + 1074) < 2 ^ d2 * 2 ^ (ey + 1074))
        by (apply Z.mul_lt_mono_pos_r; lia).
      lia. }
    apply Z.pow_lt_mono_r_iff in H; lia. }
  assert (Hvu : d2 + ey - (d1 + ex) <= 64).
  { assert (H : 2 ^ (d2 - 1 + (ey + 1074)) < 2 ^ (64 + d1 + (ex + 1074))).
    { rewrite (Z.pow_add_r 2 (d2 - 1)), (Z.pow_add_r 2 (64 + d1)),
        (Z.pow_add_r 2 64 d1) by lia.
      assert (2 ^ (d2 - 1) * 2 ^ (ey + 1074) <= Zpos my * 2 ^ (ey + 1074))
        by (apply Z.mul_le_mono_nonneg_r; lia).
      assert (Zpos mx * 2 ^ (ex + 1074) < 2 ^ d1 * 2 ^ (ex + 1074))
        by (apply Z.mul_lt_mono_pos_r; lia).
      lia. }
    apply Z.pow_lt_mono_r_iff in H; lia. }
  set (e' := Z.min (fexp 53 1024 (d1 + ex - (d2 + ey))) (ex - ey)).
  assert (He' : e' = d1 + ex - (d2 + ey) - 53)
    by (unfold e', fexp, SpecFloat.emin; lia).
  set (s := ex - ey - e').
  assert (Hs : s = 53 + d2 - d1) by (unfold s; lia).
  assert (Hs0 : 0 <= s) by lia.
  rewrite (div_core_mantissa (Zpos mx) s Hs0).
  destruct (Z.div_eucl (Zpos mx * 2 ^ s) (Zpos my)) as [q r] eqn:Eq.
  assert (Hq : q = Zpos mx * 2 ^ s / Zpos my).
  { unfold Z.div. rewrite Eq. reflexivity. }
  pose proof (Z.mul_div_le (Zpos mx * 2 ^ s) (Zpos my) ltac:(lia)) as Hql.
  pose proof (Z.mul_succ_div_gt (Zpos mx * 2 ^ s) (Zpos my) ltac:(lia)) as Hqu.
  rewrite <- Hq in Hql, Hqu.
  (* the quotient has 53 or 54 digits *)
  assert (Hnum : 2 ^ 53 * 2 ^ (d2 - 1) <= Zpos mx * 2 ^ s
                 < 2 ^ 54 * 2 ^ (d2 - 1)).
  { assert (E1 : 2 ^ 53 * 2 ^ (d2 - 1) = 2 ^ (d1 - 1) * 2 ^ s).
    { rewrite <- !Z.pow_add_r by lia. f_equal. lia. }
    assert (E2 : 2 ^ 54 * 2 ^ (d2 - 1) = 2 ^ d1 * 2 ^ s).
    { rewrite <- !Z.pow_add_r by lia. f_equal. lia. }
    assert (Hps : 0 < 2 ^ s) by (apply Z.pow_pos_nonneg; lia).
    rewrite E1, E2. split.
    - apply Z.mul_le_mono_nonneg_r; lia.
    - apply Z.mul_lt_mono_pos_r; lia. }
  assert (Hd2e : 2 ^ d2 = 2 * 2 ^ (d2 - 1)).
  { replace d2 with (1 + (d2 - 1)) at 1 by lia.
    rewrite Z.pow_add_r by lia. reflexivity. }
  assert (Hq52 : 2 ^ 52 <= q).
  { assert (2 ^ 52 * Zpos my < (q + 1) * Zpos my).
    { apply Z.le_lt_trans with (Zpos mx * 2 ^ s); [| lia].
      apply Z.le_trans with (2 ^ 53 * 2 ^ (d2 - 1)); [| lia].
      assert (2 ^ 52 * Zpos my <= 2 ^ 52 * 2 ^ d2)
        by (apply Z.mul_le_mono_nonneg_l; lia).
      rewrite Hd2e in H. lia. }
    apply (proj2 (Z.mul_lt_mono_pos_r (Zpos my) _ _ ltac:(lia))) in H.
    lia. }
  assert (Hq54 : q < 2 ^ 54).
  { assert (q * Zpos my < 2 ^ 54 * Zpos my).
    { apply Z.le_lt_trans with (Zpos mx * 2 ^ s); [lia |].
      apply Z.lt_le_trans with (2 ^ 54 * 2 ^ (d2 - 1)); [lia |].
      apply Z.mul_le_mono_nonneg_l; lia. }
    apply (proj2 (Z.mul_lt_mono_pos_r (Zpos my) _ _ ltac:(lia))) in H.
    exact H. }
  assert (He'r : - 117 <= e' <= 11) by lia.
  clearbody e' s d1 d2.
  clear Hd1 Hd1l Hd1u Hd2 Hd2l Hd2u Hd153 Huv Hvu Hs Hs0 Eq Hq Hql Hqu Hnum
        Hd2e Hr1 Hr2 Hmx HX HY He'.
  set (W := 2 ^ (e' + 2148)).
  assert (HW : 0 < W) by (apply Z.pow_pos_nonneg; lia).
  assert (HP : forall n, 0 <= n -> 2 ^ (e' + n + 2148) = 2 ^ n * W).
  { intros n Hn. unfold W.
    replace (e' + n + 2148) with (e' + 2148 + n) by lia.
    apply pow2_shift; lia. }
  assert (Hmono : forall a n, e' <= a -> a <= e' + n -> 0 <= n ->
                              W <= 2 ^ (a + 2148) <= 2 ^ n * W).
  { intros a n Ha1 Ha2 Hn. rewrite <- (HP n Hn). unfold W.
    split; apply Z.pow_le_mono_r; lia. }
  (* first alignment *)
  destruct (shr_fexp_stage 2148 ltac:(lia) (e' + 54) q e'
              (new_location (Zpos my) r))
    as (m1 & e1 & r1 & E1 & Hr1 & Hm1 & He1 & Hee1 & He1T & Hv1 & Hc1);
    try lia.
  { rewrite (HP 54) by lia. fold W. apply Z.mul_lt_mono_pos_r; lia. }
  fold W in Hv1.
  assert (HPe1 : W <= 2 ^ (e1 + 2148) <= 2 * W).
  { destruct Hc1 as [(-> & _) | [Hs1 _]].
    - fold W. lia.
    - apply (Hmono e1 1); lia. }
  set (W1 := 2 ^ (e1 + 2148)) in *.
  assert (Hm1p : 2 ^ 51 <= m1).
  { assert (H : 2 ^ 52 * W < (m1 + 1) * (2 * W)).
    { apply Z.le_lt_trans with (q * W);
        [apply Z.mul_le_mono_nonneg_r; lia |].
      apply Z.lt_le_trans with ((m1 + 1) * W1); [lia |].
      apply Z.mul_le_mono_nonneg_l; lia. }
    replace (2 ^ 52 * W) with (2 ^ 51 * (2 * W)) in H by (change (2 ^ 52) with (2 ^ 51 * 2); ring).
    apply (proj2 (Z.mul_lt_mono_pos_r (2 * W) _ _ ltac:(lia))) in H. lia. }
  set (m2 := round_nearest_even m1 (loc_of_shr_record r1)).
  destruct (round_nearest_even_bounds m1 (loc_of_shr_record r1))
    as [Hm2 _]. fold m2 in Hm2.
  assert (Hm2W : m2 * W1 < 2 ^ 55 * W).
  { apply Z.le_lt_trans with ((m1 + 1) * W1);
      [apply Z.mul_le_mono_nonneg_r; lia |].
    replace ((m1 + 1) * W1) with (m1 * W1 + W1) by ring.
    assert (q * W < 2 ^ 54 * W) by (apply Z.mul_lt_mono_pos_r; lia).
    change (2 ^ 55) with (2 * 2 ^ 54). lia. }
  (* second alignment *)
  destruct (shr_fexp_stage 2148 ltac:(lia) (e' + 55) m2 e1 loc_Exact)
    as (m3 & e3 & r3 & E3 & Hr3 & Hm3 & He3 & Hee3 & He3T & Hv3 & Hc3);
    try lia.
  { fold W1. rewrite (HP 55) by lia. exact Hm2W. }
  fold W1 in Hv3.
  assert (Hm3p : 0 < m3).
  { destruct Hc3 as [(_ & -> & _) | [Hs3 _]]; [lia |].
    destruct (Hmono e3 2 ltac:(lia) ltac:(lia) ltac:(lia)) as [_ HW3].
    set (W3 := 2 ^ (e3 + 2148)) in *.
    assert (H : 2 ^ 49 * (2 ^ 2 * W) < (m3 + 1) * (2 ^ 2 * W)).
    { apply Z.le_lt_trans with (m2 * W1).
      - apply Z.le_trans with (2 ^ 51 * W);
          [change (2 ^ 51) with (2 ^ 49 * 2 ^ 2); lia |].
        apply Z.mul_le_mono_nonneg; lia.
      - apply Z.lt_le_trans with ((m3 + 1) * W3); [lia |].
        apply Z.mul_le_mono_nonneg_l; lia. }
    apply (proj2 (Z.mul_lt_mono_pos_r (2 ^ 2 * W) _ _ ltac:(lia))) in H.
    lia. }
  unfold binary_round_aux. rewrite E1. fold m2. rewrite Hr1. fold m2.
  rewrite E3, Hr3.
  destruct m3 as [| p | p]; try lia.
  replace (e3 <=? 1024 - 53) with true by (symmetry; apply Z.leb_le; lia).
  eauto.
Qed.

Lemma f1_0_eq : f1_0 = S754_finite false (2 ^ 52) (-52).
Proof. vm_compute. reflexivity. Qed.

Lemma fin_pos_finite (x : spec_float) :
  fin_nonneg x -> 0 < sc x ->
  exists m e, x = S754_finite false m e /\ - 1074 <= e <= 971
              /\ sc x = Zpos m * 2 ^ (e + 1074).
Proof.
  destruct x as [s | s | | [] m e]; cbn [fin_nonneg sc]; try contradiction;
    try lia.
  intros He _. exists m, e. auto.
Qed.

(** The reciprocal of a float between [2^-27] and [2^4] is a positive
    finite float. *)
Lemma recip_finite_positive (D : spec_float) :
  fin_nonneg D -> 2 ^ 11 * E38 <= sc D <= 2 ^ 42 * E38 ->
  finite_signed false (F64.div f1_0 D).
Proof.
  intros Hf Hb. pose proof E38_pos as HE. pose proof P0_E38 as HPE.
  destruct (fin_pos_finite D Hf ltac:(lia)) as (my & ey & -> & Hey & Hsc).
  rewrite Hsc in Hb. rewrite f1_0_eq.
  assert (H1 : Zpos (2 ^ 52) * 2 ^ (- 52 + 1074) = P0).
  { rewrite Pos2Z.inj_pow. unfold P0. rewrite <- Z.pow_add_r by lia.
    reflexivity. }
  assert (Hm52 : Zpos (2 ^ 52) < 2 ^ 53) by (rewrite Pos2Z.inj_pow; lia).
  assert (Hr1 : Zpos (2 ^ 52) * 2 ^ (- 52 + 1074)
                <= 2 ^ 64 * (Zpos my * 2 ^ (ey + 1074))).
  { rewrite H1, HPE. set (Y := Zpos my * 2 ^ (ey + 1074)) in *.
    clearbody Y. clear - Hb HE. lia. }
  assert (Hr2 : Zpos my * 2 ^ (ey + 1074)
                <= 2 ^ 64 * (Zpos (2 ^ 52) * 2 ^ (- 52 + 1074))).
  { rewrite H1, HPE. set (Y := Zpos my * 2 ^ (ey + 1074)) in *.
    clearbody Y. clear - Hb HE. lia. }
  destruct (div_finite_positive (2 ^ 52) my (- 52) ey ltac:(lia) Hey
              Hm52 Hr1 Hr2) as (m & e & E).
  exists m, e. exact E.
Qed.

(** The denominator of the slope frequencies, between [2^-27] and [2^4]. *)
Lemma slope_den_bounds (d nf lf : spec_float) (n l : Z) :
  fin_nonneg d -> 2 ^ 17 * E38 <= sc d <= 2 ^ 31 * E38 ->
  exact_int n nf = true -> 1 <= n <= 1024 ->
  exact_int l lf = true -> 1 <= l <= 32 ->
  (fin_nonneg (F64.mul d nf) /\ 0 < sc (F64.mul d nf))
  /\ fin_nonneg (F64.div (F64.mul d nf) lf)
  /\ 2 ^ 11 * E38 <= sc (F64.div (F64.mul d nf) lf) <= 2 ^ 42 * E38.
Proof.
  intros Hd Hb Hn Hnr Hl Hlr.
  destruct (exact_int_spec n nf Hn) as [Hfn Hsn].
  destruct (exact_int_spec l lf Hl) as [Hfl Hsl].
  pose proof P0_pos as HP. pose proof E38_pos as HE. pose proof P0_E38 as HPE.
  destruct (mul_bounds d nf Hd Hfn) as [Hf2 Hb2].
  { rewrite Hsn.
    assert (H8 : sc d * n <= 8 * P0).
    { apply Z.le_trans with (2 ^ 31 * E38 * 1024); [| lia].
      apply Z.mul_le_mono_nonneg; lia. }
    replace (sc d * (n * P0)) with (sc d * n * P0) by ring.
    apply Z.le_lt_trans with (8 * P0 * P0).
    - apply Z.mul_le_mono_nonneg_r; lia.
    - apply Z.mul_lt_mono_pos_r; lia. }
  rewrite Hsn in Hb2.
  assert (Hd2 : n * sc d - E38 <= sc (F64.mul d nf) <= n * sc d + E38).
  { replace (sc d * (n * P0)) with (n * sc d * P0) in Hb2 by ring.
    replace (n * sc d * P0 - E38 * P0) with ((n * sc d - E38) * P0) in Hb2
      by ring.
    replace (n * sc d * P0 + E38 * P0) with ((n * sc d + E38) * P0) in Hb2
      by ring.
    destruct Hb2 as [Hlo Hhi].
    apply (proj2 (Z.mul_le_mono_pos_r _ _ P0 HP)) in Hlo.
    apply (proj2 (Z.mul_le_mono_pos_r _ _ P0 HP)) in Hhi.
    lia. }
  assert (Hnd : 2 ^ 17 * E38 <= n * sc d <= 2 ^ 41 * E38).
  { split.
    - apply Z.le_trans with (1 * sc d); [lia |].
      apply Z.mul_le_mono_nonneg_r; lia.
    - apply Z.le_trans with (1024 * sc d); [| lia].
      apply Z.mul_le_mono_nonneg_r; lia. }
  assert (Hd2' : 2 ^ 17 * E38 - E38 <= sc (F64.mul d nf)
                 <= 2 ^ 41 * E38 + E38) by lia.
  clear Hd2 Hb2 Hnd.
  split; [split; [exact Hf2 | lia] |].
  assert (HlP : 0 < l * P0) by (apply Z.mul_pos_pos; lia).
  destruct (div_bounds (F64.mul d nf) lf Hf2 Hfl) as [Hf3 Hb3].
  { rewrite Hsl. exact HlP. }
  { rewrite Hsl.
    apply Z.le_lt_trans with (2 ^ 41 * E38 + E38); [lia |].
    apply Z.lt_le_trans with (2 ^ 13 * (1 * P0)); [lia |].
    apply Z.mul_le_mono_nonneg_l; [lia |].
    apply Z.mul_le_mono_nonneg_r; lia. }
  split; [exact Hf3 |].
  rewrite Hsl in Hb3.
  set (M := sc (F64.mul d nf)) in *.
  set (D := sc (F64.div (F64.mul d nf) lf)) in *.
  assert (Hb4 : M - 2 * E38 * l <= l * D <= M + 2 * E38 * l).
  { replace (M * P0 - 2 * E38 * (l * P0)) with ((M - 2 * E38 * l) * P0)
      in Hb3 by ring.
    replace (M * P0 + 2 * E38 * (l * P0)) with ((M + 2 * E38 * l) * P0)
      in Hb3 by ring.
    replace (D * (l * P0)) with (l * D * P0) in Hb3 by ring.
    destruct Hb3 as [Hlo Hhi].
    apply (proj2 (Z.mul_le_mono_pos_r _ _ P0 HP)) in Hlo.
    apply (proj2 (Z.mul_le_mono_pos_r _ _ P0 HP)) in Hhi.
    lia. }
  assert (HD0 : 0 <= D) by (apply sc_nonneg, Hf3).
  assert (Hl32 : l * D <= 32 * D)
    by (apply Z.mul_le_mono_nonneg_r; lia).
  assert (Hl1 : 1 * D <= l * D)
    by (apply Z.mul_le_mono_nonneg_r; lia).
  assert (HEl : 2 * E38 * l <= 64 * E38).
  { apply Z.le_trans with (2 * E38 * 32); [| lia].
    apply Z.mul_le_mono_nonneg_l; lia. }
  clearbody M D. clear - Hd2' Hb4 Hl32 Hl1 HEl HE. lia.
Qed.

Lemma to_Q_sign (s : bool) (x : spec_float) :
  finite_signed s x ->
  if s then (F64.to_Q x < 0)%Q else (0 < F64.to_Q x)%Q.
Proof.
  intros (m & e & ->). cbn [F64.to_Q].
  assert (Hv : (0 < match e with
                    | Zneg k => Zpos m # (2 ^ k)%positive
                    | _ => inject_Z (Zpos m * 2 ^ e)
                    end)%Q).
  { destruct e as [| p | p]; unfold Qlt, inject_Z; cbn [Qnum Qden].
    - lia.
    - assert (0 < 2 ^ Zpos p) by (apply Z.pow_pos_nonneg; lia). nia.
    - lia. }
  destruct s; [| exact Hv].
  apply Qopp_lt_compat in Hv. exact Hv.
Qed.

(** The frequency of the valid cases is a positive finite float. *)
Lemma frequency_positive (mode : string) (r : spec_float)
      (l margH margL : Z) :
  normal_between (-72) (-62) r = true -> 1 <= l <= 32 ->
  0 <= margL <= margH -> margH <= 4092 ->
  finite_signed false (Spec.frequency mode r l margH margL).
Proof.
  intros Hr Hl H1 H2.
  pose proof (code_span_range margH margL H1 H2) as Hn.
  unfold code_span in Hn.
  destruct (of_Z_small _ Hn) as [Hen _].
  destruct (of_Z_small l ltac:(lia)) as [Hel _].
  destruct (double_rate r Hr) as [Hf2 Hb2].
  destruct (rate_bounds r Hr) as [Hf1 Hb1].
  pose proof E38_pos as HE.
  unfold Spec.frequency. cbv zeta.
  destruct (mode =? "square")%string.
  { apply recip_finite_positive; [exact Hf2 | lia]. }
  destruct (mode =? "triangle")%string.
  - destruct (slope_den_bounds _ _ _ _ _ Hf2 Hb2 Hen Hn Hel Hl)
      as (_ & Hf & Hb).
    apply recip_finite_positive; assumption.
  - destruct (slope_den_bounds r _ _ _ _ Hf1 ltac:(lia) Hen Hn Hel Hl)
      as (_ & Hf & Hb).
    apply recip_finite_positive; assumption.
Qed.

(** X17: for valid arguments (as in X19) the frequency [funcGen] reports is a
    finite binary64 number greater than zero: the divisions of the formula
    neither overflow to infinity nor underflow to zero, in every mode and
    for every table entry and pair of margin codes. *)
Theorem funcGen_frequency_positive
        (mode : string) (marginH marginL : F64.float)
        (margH margL slew step : Z) :
  In mode waveform_modes ->
  0 <= slew <= 14 -> 0 <= step <= 7 ->
  calcDACCode marginH = Ok margH -> calcDACCode marginL = Ok margL ->
  0 <= margL <= margH -> margH <= 4092 ->
  exists f,
    reported_frequency (events (funcGen mode marginH marginL slew step))
    = Some f
    /\ finite_signed false f
    /\ (0 < F64.to_Q f)%Q.
Proof.
  intros Hm Hs Hp HH HL Hc1 Hc2.
  destruct (slew_rate_in slew Hs) as (r & Es & _ & Hr).
  destruct (code_step_in step Hp) as (l & Ep & _ & Hl & _).
  rewrite (funcGen_run mode marginH marginL slew step margH margL
             [] _ [] _ HH HL Es Ep).
  pose proof (modes_valid slew step l r Hr Hl mode marginH marginL margH margL
                Hm Hc1 Hc2) as Hmv.
  unfold slew_entry, step_entry in Hmv. rewrite Hmv.
  exists (Spec.frequency mode r l margH margL).
  split; [reflexivity |].
  pose proof (frequency_positive mode r l margH margL Hr Hl Hc1 Hc2) as Hf.
  split; [exact Hf | apply (to_Q_sign false), Hf].
Qed.

Lemma funcGen_frequency_positive_witness :
  exists f,
    reported_frequency (events (funcGen "sawL" v5_0 v0_0 3 4)) = Some f
    /\ finite_signed false f
    /\ (0 < F64.to_Q f)%Q.
Proof.
  apply (funcGen_frequency_positive "sawL" v5_0 v0_0 4092 0 3 4);
    try reflexivity; try lia.
  simpl. auto.
Defined.

(** Rounding does not look at the sign. *)
Lemma binary_round_aux_opp (s : bool) (m e : Z) (l : location) :
  binary_round_aux 53 1024 (negb s) m e l
  = SFopp (binary_round_aux 53 1024 s m e l).
Proof.
  unfold binary_round_aux.
  destruct (shr_fexp 53 1024 m e l) as [r1 e1].
  destruct (shr_fexp 53 1024 _ e1 loc_Exact) as [r2 e2].
  destruct (shr_m r2) as [| p | p]; try reflexivity.
  destruct (e2 <=? 1024 - 53); reflexivity.
Qed.

Lemma of_Z_opp (n : Z) : 0 < n -> F64.of_Z (- n) = SFopp (F64.of_Z n).
Proof.
  intros Hn. destruct n as [| p | p]; try lia.
  unfold F64.of_Z, F64.prec, F64.emax. cbn [Z.opp binary_normalize].
  unfold binary_round.
  destruct (shl_align p 0 (fexp 53 1024 (Zpos (digits2_pos p) + 0)))
    as [mz ez].
  apply (binary_round_aux_opp false).
Qed.

Lemma mul_opp_r (x y : spec_float) :
  finite_signed false x -> finite_signed false y ->
  F64.mul x (SFopp y) = SFopp (F64.mul x y).
Proof.
  intros (mx & ex & ->) (my & ey & ->).
  unfold F64.mul, F64.prec, F64.emax. cbn [SFopp SFmul xorb negb].
  apply (binary_round_aux_opp false).
Qed.

Lemma div_opp_l (x y : spec_float) :
  finite_signed false x -> finite_signed false y ->
  F64.div (SFopp x) y = SFopp (F64.div x y).
Proof.
  intros (mx & ex & ->) (my & ey & ->).
  unfold F64.div, F64.prec, F64.emax. cbn [SFopp SFdiv xorb negb].
  destruct (SFdiv_core_binary 53 1024 (Zpos mx) ex (Zpos my) ey)
    as [[mz ez] lz].
  apply (binary_round_aux_opp false).
Qed.

Lemma div_opp_r (x y : spec_float) :
  finite_signed false x -> finite_signed false y ->
  F64.div x (SFopp y) = SFopp (F64.div x y).
Proof.
  intros (mx & ex & ->) (my & ey & ->).
  unfold F64.div, F64.prec, F64.emax. cbn [SFopp SFdiv xorb negb].
  destruct (SFdiv_core_binary 53 1024 (Zpos mx) ex (Zpos my) ey)
    as [[mz ez] lz].
  apply (binary_round_aux_opp false).
Qed.

Lemma fin_pos_signed (x : spec_float) :
  fin_nonneg x -> 0 < sc x -> finite_signed false x.
Proof.
  intros Hf Hs. destruct (fin_pos_finite x Hf Hs) as (m & e & -> & _).
  exists m, e. reflexivity.
Qed.

Lemma exact_int_signed (n : Z) (x : spec_float) :
  exact_int n x = true -> finite_signed false x.
Proof.
  destruct x as [s | s | | [] m e]; cbn [exact_int]; try discriminate.
  intros _. exists m, e. reflexivity.
Qed.

Lemma finite_signed_opp (x : spec_float) :
  finite_signed false x -> finite_signed true (SFopp x).
Proof. intros (m & e & ->). exists m, e. reflexivity. Qed.

(** The slope frequencies with a negative span [- n]. *)
Lemma slope_freq_negative_span (i j l n : Z) (r : spec_float)
      (margH margL : Z) :
  normal_between (-72) (-62) r = true -> 1 <= l <= 32 ->
  1 <= n <= 1024 -> code_span margH margL = - n ->
  (exists f, triangle_freq (PyList [PyInt i; PyFloat r])
                           (PyList [PyInt j; PyInt l]) margH margL = Ok f
             /\ finite_signed true f)
  /\ (exists f, saw_freq (PyList [PyInt i; PyFloat r])
                         (PyList [PyInt j; PyInt l]) margH margL = Ok f
                /\ finite_signed true f).
Proof.
  intros Hr Hl Hn Hspan.
  destruct (of_Z_small n Hn) as [Hen Hfn].
  destruct (of_Z_small l ltac:(lia)) as [Hel Hfl].
  pose proof (exact_int_signed _ _ Hen) as Sn.
  pose proof (exact_int_signed _ _ Hel) as Sl.
  destruct (double_rate r Hr) as [Hf2 Hb2].
  destruct (rate_bounds r Hr) as [Hf1 Hb1].
  pose proof E38_pos as HE.
  assert (Hneg : Py.float_of_int (- n) = Ok (SFopp (F64.of_Z n))).
  { unfold Py.float_of_int. rewrite of_Z_opp by lia.
    destruct Sn as (m & e & ->). reflexivity. }
  assert (Hnz : F64.is_zero (F64.of_Z l) = false).
  { destruct Sl as (m & e & ->). reflexivity. }
  assert (Hopp_nz : forall x, finite_signed false x ->
                              F64.is_zero (SFopp x) = false).
  { intros x (m & e & ->). reflexivity. }
  unfold triangle_freq, saw_freq, Py.fmul, Py.fdiv.
  cbn [Py.getitem nth_error and_then Py.as_float].
  rewrite Hspan, Hneg, Hfl. cbn [and_then]. unfold Py.truediv. rewrite Hnz.
  cbn [and_then].
  split.
  - destruct (slope_den_bounds _ _ _ _ _ Hf2 Hb2 Hen Hn Hel Hl)
      as ((HfM & HsM) & HfD & HbD).
    pose proof (fin_pos_signed _ Hf2 ltac:(lia)) as S2.
    pose proof (fin_pos_signed _ HfM HsM) as SM.
    pose proof (fin_pos_signed _ HfD ltac:(lia)) as SD.
    pose proof (recip_finite_positive _ HfD HbD) as SF.
    pose proof (exact_int_signed _ _ f1_0_exact) as S1.
    rewrite (mul_opp_r _ _ S2 Sn), (div_opp_l _ _ SM Sl).
    rewrite (Hopp_nz _ SD), (div_opp_r _ _ S1 SD).
    eexists. split; [reflexivity |]. apply finite_signed_opp, SF.
  - destruct (slope_den_bounds r _ _ _ _ Hf1 ltac:(lia) Hen Hn Hel Hl)
      as ((HfM & HsM) & HfD & HbD).
    pose proof (fin_pos_signed _ Hf1 ltac:(lia)) as S2.
    pose proof (fin_pos_signed _ HfM HsM) as SM.
    pose proof (fin_pos_signed _ HfD ltac:(lia)) as SD.
    pose proof (recip_finite_positive _ HfD HbD) as SF.
    pose proof (exact_int_signed _ _ f1_0_exact) as S1.
    rewrite (mul_opp_r _ _ S2 Sn), (div_opp_l _ _ SM Sl).
    rewrite (Hopp_nz _ SD), (div_opp_r _ _ S1 SD).
    eexists. split; [reflexivity |]. apply finite_signed_opp, SF.
Qed.

Lemma modes_negative_span (mode : string) marginH marginL margH margL
      (i j l n : Z) (r : spec_float) :
  In mode ["triangle"; "sawH"; "sawL"]%string ->
  normal_between (-72) (-62) r = true -> 1 <= l <= 32 ->
  1 <= n <= 1024 -> code_span margH margL = - n ->
  exists f,
    finite_signed true f
    /\ funcGen_modes mode marginH marginL margH margL
                     (PyList [PyInt i; PyFloat r]) (PyList [PyInt j; PyInt l])
       = ([BusWrite DAC_addr regConfig (nibble (Spec.config_cmd mode i j));
           BusWrite DAC_addr regDAC_MarginH (nibble margH);
           BusWrite DAC_addr regDAC_MarginL (nibble margL);
           BusWrite DAC_addr regTrigger (nibble (Z.shiftl cmdStartFunc 8));
           Print (GenReport mode marginH marginL i (Some (PyInt l)) f)],
          Ok tt).
Proof.
  intros Hm Hr Hl Hn Hspan.
  destruct (slope_freq_negative_span i j l n r margH margL Hr Hl Hn Hspan)
    as [(ft & Et & St) (fs & Es & Ss)].
  destruct Hm as [<- | [<- | [<- | []]]]; unfold funcGen_modes;
    cbn [String.eqb Ascii.eqb Bool.eqb].
  - exists ft. split; [exact St |].
    change cmdTriangle with (Spec.mode_code "triangle").
    pose proof (slope_cmd_ok i j l r "triangle" ltac:(cbn; auto)) as Hc.
    unfold slew_entry, step_entry in Hc. rewrite Hc, Et. reflexivity.
  - exists fs. split; [exact Ss |].
    change cmdSawH with (Spec.mode_code "sawH").
    pose proof (slope_cmd_ok i j l r "sawH" ltac:(cbn; auto)) as Hc.
    unfold slew_entry, step_entry in Hc. rewrite Hc, Es. reflexivity.
  - exists fs. split; [exact Ss |].
    change cmdSawL with (Spec.mode_code "sawL").
    pose proof (slope_cmd_ok i j l r "sawL" ltac:(cbn; auto)) as Hc.
    unfold slew_entry, step_entry in Hc. rewrite Hc, Es. reflexivity.
Qed.

(** X18: [funcGen] does not check the order of the margins.  In the
    triangle and sawtooth modes, with the margin-low code more than one
    level above the margin-high code, it ends normally, issues the config,
    margin-high, margin-low and start writes with the margins as given, and
    reports a frequency that is a finite negative number. *)
Theorem funcGen_inverted_margins
        (mode : string) (marginH marginL : F64.float)
        (margH margL slew step : Z) :
  In mode ["triangle"; "sawH"; "sawL"]%string ->
  0 <= slew <= 14 -> 0 <= step <= 7 ->
  calcDACCode marginH = Ok margH -> calcDACCode marginL = Ok margL ->
  0 <= margH -> margH + 4 < margL -> margL <= 4092 ->
  exists cmd f,
    bus_writes (events (funcGen mode marginH marginL slew step))
    = [(regTrigger, nibble cmdErase);
       (regConfig, nibble cmd);
       (regDAC_MarginH, nibble margH);
       (regDAC_MarginL, nibble margL);
       (regTrigger, nibble (Z.shiftl cmdStartFunc 8))]
    /\ outcome (funcGen mode marginH marginL slew step) = Ok tt
    /\ reported_frequency (events (funcGen mode marginH marginL slew step))
       = Some f
    /\ finite_signed true f
    /\ (F64.to_Q f < 0)%Q.
Proof.
  intros Hm Hs Hp HH HL H0 Hinv H4092.
  destruct (slew_rate_in slew Hs) as (r & Es & _ & Hr).
  destruct (code_step_in step Hp) as (l & Ep & _ & Hl & _).
  rewrite (funcGen_run mode marginH marginL slew step margH margL
             [] _ [] _ HH HL Es Ep).
  assert (Hspan : exists n, 1 <= n <= 1024 /\ code_span margH margL = - n).
  { exists (- code_span margH margL). unfold code_span.
    rewrite Z.shiftr_div_pow2 by lia. change (2 ^ 2) with 4.
    split; [Z.div_mod_to_equations; lia | lia]. }
  destruct Hspan as (n & Hn & Hspan).
  destruct (modes_negative_span mode marginH marginL margH margL slew step
              l n r Hm Hr Hl Hn Hspan) as (f & Sf & ->).
  exists (Spec.config_cmd mode slew step), f.
  repeat split; try assumption.
  apply (to_Q_sign true), Sf.
Qed.

Lemma funcGen_inverted_margins_witness :
  exists cmd f,
    bus_writes (events (funcGen "triangle" v0_0 v5_0 3 4))
    = [(regTrigger, nibble cmdErase);
       (regConfig, nibble cmd);
       (regDAC_MarginH, nibble 0);
       (regDAC_MarginL, nibble 4092);
       (regTrigger, nibble (Z.shiftl cmdStartFunc 8))]
    /\ outcome (funcGen "triangle" v0_0 v5_0 3 4) = Ok tt
    /\ reported_frequency (events (funcGen "triangle" v0_0 v5_0 3 4))
       = Some f
    /\ finite_signed true f
    /\ (F64.to_Q f < 0)%Q.
Proof.
  apply (funcGen_inverted_margins "triangle" v0_0 v5_0 0 4092 3 4);
    try reflexivity; try lia.
  simpl. auto.
Defined.
